(** * Document anti-fraud analyzer: validation and risk-scoring core

    A shallow embedding of [src/document_analyzer.py] (class
    [DocumentAnalyzer]) and the properties its specification states.

    Conventions of the embedding.
    - A Python [str] is a list of characters; a character is an [ascii]
      read as a code point in 0..255 (the Latin-1 range of Python's
      [str]).  The character predicates ([str.isdigit], [str.isspace],
      [str.lower], the regular expression class [\d], [int()]) are
      Python's, restricted to that range.
    - Python [int] is [Z]; [len] is [Z.of_nat (length _)].
    - A call that may raise returns a [result]; [try/except ValueError]
      is a match on [Raise ValueError].
    - [datetime.now()] is an input: the reading of the clock at the
      moment of the call. *)

From Stdlib Require Import ZArith Ascii String List Bool Lia.
Import ListNotations.
Local Open Scope Z_scope.

(** ** Python values *)

Definition pystr := list ascii.

Definition py (s : string) : pystr := list_ascii_of_string s.

Definition ord (c : ascii) : Z := Z.of_N (N_of_ascii c).

Inductive exn := ValueError | IndexError | ServiceError.

Inductive result (A : Type) :=
| Ok (a : A)
| Raise (e : exn).
Arguments Ok {A} a.
Arguments Raise {A} e.

Definition bind {A B} (m : result A) (k : A -> result B) : result B :=
  match m with
  | Ok a => k a
  | Raise e => Raise e
  end.

Notation "x <- m ;; k" := (bind m (fun x => k))
  (at level 61, m at next level, right associativity).

Definition ascii_eqb (a b : ascii) : bool := Ascii.eqb a b.

Fixpoint str_eqb (s t : pystr) : bool :=
  match s, t with
  | [], [] => true
  | a :: s', b :: t' => ascii_eqb a b && str_eqb s' t'
  | _, _ => false
  end.

(** [str.isdigit]: the characters whose Unicode Numeric_Type is Digit or
    Decimal.  Below 256 these are '0'..'9' and the superscripts U+00B2,
    U+00B3 and U+00B9. *)
Definition str_isdigit (c : ascii) : bool :=
  let n := ord c in
  ((48 <=? n) && (n <=? 57)) || (n =? 178) || (n =? 179) || (n =? 185).

(** [str.isdecimal], which is also the class [\d] of [re] on [str]
    patterns: below 256, '0'..'9' only. *)
Definition str_isdecimal (c : ascii) : bool :=
  let n := ord c in (48 <=? n) && (n <=? 57).

(** [str.isspace]: below 256, U+0009..U+000D, U+001C..U+0020, U+0085 and
    U+00A0. *)
Definition str_isspace (c : ascii) : bool :=
  let n := ord c in
  ((9 <=? n) && (n <=? 13)) || ((28 <=? n) && (n <=? 32))
  || (n =? 133) || (n =? 160).

(** [str.lower] on one character: below 256, 'A'..'Z' and U+00C0..U+00DE
    except the multiplication sign U+00D7 move up by 32. *)
Definition chr_lower (c : ascii) : ascii :=
  let n := ord c in
  if ((65 <=? n) && (n <=? 90))
     || ((192 <=? n) && (n <=? 222) && negb (n =? 215))
  then ascii_of_N (Z.to_N (n + 32))
  else c.

Definition lower (s : pystr) : pystr := map chr_lower s.

Fixpoint lstrip (s : pystr) : pystr :=
  match s with
  | c :: s' => if str_isspace c then lstrip s' else s
  | [] => []
  end.

Definition strip (s : pystr) : pystr := rev (lstrip (rev (lstrip s))).

Fixpoint startswith (p s : pystr) : bool :=
  match p, s with
  | [], _ => true
  | a :: p', b :: s' => ascii_eqb a b && startswith p' s'
  | _ :: _, [] => false
  end.

(** [needle in hay] on strings. *)
Fixpoint contains (needle hay : pystr) : bool :=
  startswith needle hay ||
  match hay with
  | [] => false
  | _ :: hay' => contains needle hay'
  end.

(** [s[i]] for [i >= 0]. *)
Definition str_index (s : pystr) (i : nat) : result ascii :=
  match nth_error s i with
  | Some c => Ok c
  | None => Raise IndexError
  end.

Fixpoint decimal_value (acc : Z) (s : pystr) : result Z :=
  match s with
  | [] => Ok acc
  | c :: s' =>
      if str_isdecimal c then decimal_value (10 * acc + (ord c - 48)) s'
      else Raise ValueError
  end.

(** [int(s)] on the strings that reach it here: surrounding white space
    is dropped, and what is left must be a non-empty run of decimal
    digits (signs and underscores never occur in these texts: a lone
    sign or underscore is refused by Python as it is here). *)
Definition py_int (s : pystr) : result Z :=
  match strip s with
  | [] => Raise ValueError
  | t => decimal_value 0 t
  end.

(** ** [datetime] *)

Record datetime := mk_datetime {
  year : Z; month : Z; day : Z;
  hour : Z; minute : Z; second : Z; microsecond : Z
}.

Definition is_leap (y : Z) : bool :=
  (y mod 4 =? 0) && (negb (y mod 100 =? 0) || (y mod 400 =? 0)).

Definition days_in_month (y m : Z) : Z :=
  if m =? 2 then (if is_leap y then 29 else 28)
  else if (m =? 4) || (m =? 6) || (m =? 9) || (m =? 11) then 30
  else 31.

(** What [datetime.date(y, m, d)] accepts; anything else is a
    [ValueError]. *)
Definition valid_date (y m d : Z) : bool :=
  (1 <=? y) && (y <=? 9999) && (1 <=? m) && (m <=? 12)
  && (1 <=? d) && (d <=? days_in_month y m).

Fixpoint lex_le (a b : list Z) : bool :=
  match a, b with
  | x :: a', y :: b' => (x <? y) || ((x =? y) && lex_le a' b')
  | _, _ => true
  end.

Fixpoint lex_lt (a b : list Z) : bool :=
  match a, b with
  | x :: a', y :: b' => (x <? y) || ((x =? y) && lex_lt a' b')
  | _, _ => false
  end.

Definition datetime_fields (t : datetime) : list Z :=
  [year t; month t; day t; hour t; minute t; second t; microsecond t].

(** [a <= b] and [a < b] on naive datetimes: the order of the field
    tuples. *)
Definition datetime_le (a b : datetime) : bool :=
  lex_le (datetime_fields a) (datetime_fields b).

Definition datetime_lt (a b : datetime) : bool :=
  lex_lt (datetime_fields a) (datetime_fields b).

(** ** [datetime.strptime]

    [_strptime] turns the format into a regular expression, one named
    group per directive, matches it at the start of the data with
    [re.IGNORECASE], refuses data left over after the match, and builds
    the date from the groups.  The matcher below lists the matches of a
    quantifier-free expression in the order a backtracking engine tries
    them; [re.match] returns the first. *)

Inductive regex :=
| RChar (c : ascii)
| RRange (lo hi : ascii)
| RDigit
| RSeq (r1 r2 : regex)
| RAlt (r1 r2 : regex).

Definition match_one (ok : ascii -> bool) (s : pystr) : list (pystr * pystr) :=
  match s with
  | x :: s' => if ok x then [([x], s')] else []
  | [] => []
  end.

Fixpoint rmatch (r : regex) (s : pystr) : list (pystr * pystr) :=
  match r with
  | RChar c => match_one (fun x => ascii_eqb (chr_lower x) (chr_lower c)) s
  | RRange lo hi => match_one (fun x => (ord lo <=? ord x) && (ord x <=? ord hi)) s
  | RDigit => match_one str_isdecimal s
  | RSeq r1 r2 =>
      flat_map (fun m1 =>
        map (fun m2 => (fst m1 ++ fst m2, snd m2)) (rmatch r2 (snd m1)))
        (rmatch r1 s)
  | RAlt r1 r2 => rmatch r1 s ++ rmatch r2 s
  end.

Inductive directive := Dir_d | Dir_m | Dir_Y.

Definition directive_eqb (a b : directive) : bool :=
  match a, b with
  | Dir_d, Dir_d | Dir_m, Dir_m | Dir_Y, Dir_Y => true
  | _, _ => false
  end.

Inductive fmt_item :=
| FDir (d : directive)
| FLit (c : ascii).

(** ['d': 3[0-1]|[1-2]\d|0[1-9]|[1-9]| [1-9]],
    ['m': 1[0-2]|0[1-9]|[1-9]], ['Y': \d\d\d\d]. *)
Definition directive_regex (d : directive) : regex :=
  match d with
  | Dir_d =>
      RAlt (RSeq (RChar "3") (RRange "0" "1"))
     (RAlt (RSeq (RRange "1" "2") RDigit)
     (RAlt (RSeq (RChar "0") (RRange "1" "9"))
     (RAlt (RRange "1" "9")
           (RSeq (RChar " ") (RRange "1" "9")))))
  | Dir_m =>
      RAlt (RSeq (RChar "1") (RRange "0" "2"))
     (RAlt (RSeq (RChar "0") (RRange "1" "9"))
           (RRange "1" "9"))
  | Dir_Y => RSeq RDigit (RSeq RDigit (RSeq RDigit RDigit))
  end.

Definition item_regex (it : fmt_item) : regex :=
  match it with
  | FDir d => directive_regex d
  | FLit c => RChar c
  end.

(** The format as [TimeRE.pattern] reads it, for the directives [%d],
    [%m], [%Y] and literal characters that are neither white space nor
    special in a regular expression apart from being escaped.  [None]
    stands for a format [_strptime] refuses (bad or stray directive). *)
Fixpoint parse_format (f : pystr) : option (list fmt_item) :=
  match f with
  | [] => Some []
  | c :: f' =>
      if ascii_eqb c "%" then
        match f' with
        | k :: f'' =>
            let d :=
              if ascii_eqb k "d" then Some Dir_d
              else if ascii_eqb k "m" then Some Dir_m
              else if ascii_eqb k "Y" then Some Dir_Y
              else None in
            match d, parse_format f'' with
            | Some d, Some items => Some (FDir d :: items)
            | _, _ => None
            end
        | [] => None
        end
      else
        match parse_format f' with
        | Some items => Some (FLit c :: items)
        | None => None
        end
  end.

(** The matches of the whole pattern, in order: the text each item
    matched, and the data left after the match. *)
Fixpoint fmt_match (items : list fmt_item) (s : pystr)
  : list (list pystr * pystr) :=
  match items with
  | [] => [([], s)]
  | it :: items' =>
      flat_map (fun m1 =>
        map (fun m2 => (fst m1 :: fst m2, snd m2)) (fmt_match items' (snd m1)))
        (rmatch (item_regex it) s)
  end.

(** [found.group(d)], the text of directive [d]'s group, if the format
    has it. *)
Fixpoint group (d : directive) (items : list fmt_item) (texts : list pystr)
  : option pystr :=
  match items, texts with
  | FDir d' :: items', t :: texts' =>
      if directive_eqb d d' then Some t else group d items' texts'
  | FLit _ :: items', _ :: texts' => group d items' texts'
  | _, _ => None
  end.

Definition group_int (d : directive) (default : Z)
    (items : list fmt_item) (texts : list pystr) : result Z :=
  match group d items texts with
  | Some t => py_int t
  | None => Ok default
  end.

(** [_strptime] once the format is compiled: the first match, no data
    left over, the fields read from the groups ([1900], [1], [1] for a
    directive the format lacks), and the date built from them. *)
Definition strptime_items (items : list fmt_item) (data_string : pystr)
  : result datetime :=
  match fmt_match items data_string with
  | [] => Raise ValueError
  | (texts, rest) :: _ =>
      if negb (Nat.eqb (length rest) 0) then Raise ValueError
      else
        y <- group_int Dir_Y 1900 items texts ;;
        m <- group_int Dir_m 1 items texts ;;
        d <- group_int Dir_d 1 items texts ;;
        if valid_date y m d then Ok (mk_datetime y m d 0 0 0 0)
        else Raise ValueError
  end.

Definition strptime (data_string format : pystr) : result datetime :=
  match parse_format format with
  | None => Raise ValueError
  | Some items => strptime_items items data_string
  end.

(** ** [json.dumps(_, ensure_ascii=False)] on strings, lists of strings
    and string-to-string dicts *)

Definition dquote : ascii := "034"%char.
Definition backslash : ascii := "092"%char.
Definition newline : ascii := "010"%char.

Definition hex_digit (n : Z) : ascii :=
  if n <? 10 then ascii_of_N (Z.to_N (48 + n))
  else ascii_of_N (Z.to_N (87 + n)).

Definition json_escape (c : ascii) : pystr :=
  let n := ord c in
  if n =? 34 then [backslash; dquote]
  else if n =? 92 then [backslash; backslash]
  else if n =? 10 then [backslash; "n"%char]
  else if n =? 13 then [backslash; "r"%char]
  else if n =? 9 then [backslash; "t"%char]
  else if n =? 8 then [backslash; "b"%char]
  else if n =? 12 then [backslash; "f"%char]
  else if n <? 32 then
    [backslash; "u"%char; "0"%char; "0"%char; hex_digit (n / 16); hex_digit (n mod 16)]
  else [c].

Definition json_str (s : pystr) : pystr :=
  [dquote] ++ flat_map json_escape s ++ [dquote].

Fixpoint join (sep : pystr) (parts : list pystr) : pystr :=
  match parts with
  | [] => []
  | [p] => p
  | p :: parts' => p ++ sep ++ join sep parts'
  end.

Definition json_list (l : list pystr) : pystr :=
  py "[" ++ join (py ", ") (map json_str l) ++ py "]".

Definition json_dict (d : list (pystr * pystr)) : pystr :=
  py "{" ++ join (py ", ")
    (map (fun kv => json_str (fst kv) ++ py ": " ++ json_str (snd kv)) d)
  ++ py "}".

(** ** The analyzer *)

Module DocumentAnalyzer.

(** [{"valid_fields": [...], "invalid_fields": [...], "warnings": [...]}] *)
Record ValidationResult := {
  valid_fields : list pystr;
  invalid_fields : list pystr;
  warnings : list pystr
}.

(** [{"analysis": ..., "flags": [...]}] *)
Record FraudAnalysis := {
  analysis : pystr;
  flags : list pystr
}.

(** [filter(str.isdigit, s)] joined back into a string. *)
Definition digits_only (s : pystr) : pystr := filter str_isdigit s.

(** [sum(f(j) for j in js)], started at [acc]: the terms are evaluated in
    order and the first one that raises ends the sum. *)
Fixpoint gen_sum (f : nat -> result Z) (js : list nat) (acc : Z) : result Z :=
  match js with
  | [] => Ok acc
  | j :: js' => v <- f j ;; gen_sum f js' (acc + v)
  end.

(** [int(cpf[j]) * ((i + 1) - j)] *)
Definition cpf_term (cpf : pystr) (i j : nat) : result Z :=
  c <- str_index cpf j ;;
  d <- py_int [c] ;;
  Ok (d * ((Z.of_nat i + 1) - Z.of_nat j)).

(** The body of [for i in range(9, 11)]; [todo] is what is left of the
    range. *)
Fixpoint cpf_check_loop (cpf : pystr) (todo : list nat) : result bool :=
  match todo with
  | [] => Ok true
  | i :: rest =>
      total <- gen_sum (cpf_term cpf i) (seq 0 i) 0 ;;
      let digit := (total * 10 mod 11) mod 10 in
      c <- str_index cpf i ;;
      d <- py_int [c] ;;
      if negb (d =? digit) then Ok false else cpf_check_loop cpf rest
  end.

Definition _validate_cpf (cpf : pystr) : result bool :=
  let cpf := digits_only cpf in
  if negb (Nat.eqb (length cpf) 11)
     || str_eqb cpf (repeat (hd "000"%char cpf) 11)
  then Ok false
  else cpf_check_loop cpf (seq 9 2).

Definition _validate_cnpj (cnpj : pystr) : bool :=
  let cnpj := digits_only cnpj in
  if negb (Nat.eqb (length cnpj) 14) then false else true.

Definition len {A} (l : list A) : Z := Z.of_nat (length l).

Definition _calculate_risk_score
    (validation : ValidationResult) (fraud_analysis : FraudAnalysis) : Z :=
  let score := 0 in
  let invalid_count := len (invalid_fields validation) in
  let warning_count := len (warnings validation) in
  let flag_count := len (flags fraud_analysis) in
  let score := score + invalid_count * 25 in
  let score := score + warning_count * 10 in
  let score := score + flag_count * 15 in
  Z.min score 100.

Definition _get_risk_level (score : Z) : pystr :=
  if score <=? 20 then py "BAIXO"
  else if score <=? 50 then py "MEDIO"
  else if score <=? 75 then py "ALTO"
  else py "CRITICO".

Definition formats : list pystr :=
  [py "%d/%m/%Y"; py "%Y-%m-%d"; py "%d-%m-%Y"; py "%m/%d/%Y"].

(** The body of [for fmt in formats], with [except ValueError: continue];
    [now] is what [datetime.now()] returns when the loop reaches it. *)
Fixpoint validate_date_loop (now : datetime) (date_str : pystr)
    (fmts : list pystr) : result bool :=
  match fmts with
  | [] => Ok false
  | fmt :: rest =>
      match strptime (strip date_str) fmt with
      | Ok date => Ok (datetime_le date now)
      | Raise ValueError => validate_date_loop now date_str rest
      | Raise e => Raise e
      end
  end.

Definition _validate_date (now : datetime) (date_str : pystr) : result bool :=
  validate_date_loop now date_str formats.

(** A [dict] of strings, as the list of its items in iteration order. *)
Definition dict := list (pystr * pystr).

(** [d[key] = value]: a key already there keeps its place. *)
Fixpoint dict_set (d : dict) (key value : pystr) : dict :=
  match d with
  | [] => [(key, value)]
  | (k, v) :: d' =>
      if str_eqb k key then (k, value) :: d' else (k, v) :: dict_set d' key value
  end.

Record TableCell := {
  row : Z;
  col : Z;
  content : pystr
}.

(** The dict [_extract_document_data] returns: either the three
    collections or the single ["error"] entry; a key that is absent is
    [None]. *)
Record ExtractedData := {
  error : option pystr;
  key_value_pairs : option dict;
  tables : option (list (list TableCell));
  entities : option (list pystr)
}.

(** [extracted_data.get("key_value_pairs", {})] *)
Definition get_key_value_pairs (extracted_data : ExtractedData) : dict :=
  match key_value_pairs extracted_data with
  | Some kvp => kvp
  | None => []
  end.

Definition append_valid (r : ValidationResult) (label : pystr) :=
  {| valid_fields := valid_fields r ++ [label];
     invalid_fields := invalid_fields r;
     warnings := warnings r |}.

Definition append_invalid (r : ValidationResult) (label : pystr) :=
  {| valid_fields := valid_fields r;
     invalid_fields := invalid_fields r ++ [label];
     warnings := warnings r |}.

Definition append_warning (r : ValidationResult) (label : pystr) :=
  {| valid_fields := valid_fields r;
     invalid_fields := invalid_fields r;
     warnings := warnings r ++ [label] |}.

(** One turn of [for key, value in kvp.items()]. *)
Definition validate_entry (now : datetime) (results : ValidationResult)
    (key value : pystr) : result ValidationResult :=
  let key_lower := lower key in
  if contains (py "cpf") key_lower then
    ok <- _validate_cpf value ;;
    if ok then Ok (append_valid results (py "CPF: " ++ value))
    else Ok (append_invalid results (py "CPF invalido: " ++ value))
  else if contains (py "cnpj") key_lower then
    if _validate_cnpj value
    then Ok (append_valid results (py "CNPJ: " ++ value))
    else Ok (append_invalid results (py "CNPJ invalido: " ++ value))
  else if contains (py "data") key_lower || contains (py "date") key_lower then
    ok <- _validate_date now value ;;
    if ok then Ok (append_valid results (py "Data: " ++ value))
    else Ok (append_warning results (py "Data suspeita: " ++ value))
  else Ok results.

(** The loop over the items; [clock i] is the clock's reading during
    turn [i] (each turn reads it at most once). *)
Fixpoint validate_loop (clock : nat -> datetime) (i : nat)
    (results : ValidationResult) (items : dict) : result ValidationResult :=
  match items with
  | [] => Ok results
  | (key, value) :: items' =>
      r <- validate_entry (clock i) results key value ;;
      validate_loop clock (S i) r items'
  end.

Definition empty_results : ValidationResult :=
  {| valid_fields := []; invalid_fields := []; warnings := [] |}.

Definition _validate_fields (clock : nat -> datetime)
    (extracted_data : ExtractedData) : result ValidationResult :=
  let results := empty_results in
  let kvp := get_key_value_pairs extracted_data in
  validate_loop clock 0 results kvp.

(** What the Document Intelligence service answers: the pairs and tables
    of [result], each possibly absent. *)
Record KeyValuePair := {
  pair_key : option pystr;
  pair_value : option pystr
}.

Record AnalyzeResult := {
  result_key_value_pairs : option (list KeyValuePair);
  result_tables : option (list (list TableCell))
}.

(** [self]: the two collaborators, each absent when not configured.
    The document client stands for opening the file, starting the
    analysis and waiting for its result; the text client for
    [chat.completions.create(model, messages)], answering the contents
    of the choices. *)
Record Analyzer := {
  doc_client : option (pystr -> result AnalyzeResult);
  openai_client : option (pystr -> pystr -> result (list pystr));
  openai_deployment : pystr
}.

Definition extract_pairs (pairs : list KeyValuePair) : dict :=
  fold_left (fun d pair =>
    let key := match pair_key pair with Some k => k | None => py "unknown" end in
    let value := match pair_value pair with Some v => v | None => [] end in
    dict_set d key value) pairs [].

Definition _extract_document_data (self : Analyzer) (document_path : pystr)
  : result ExtractedData :=
  match doc_client self with
  | None =>
      Ok {| error := Some (py "Document Intelligence client nao configurado");
            key_value_pairs := None; tables := None; entities := None |}
  | Some client =>
      res <- client document_path ;;
      let kvp :=
        match result_key_value_pairs res with
        | Some pairs => extract_pairs pairs
        | None => []
        end in
      let tbls :=
        match result_tables res with
        | Some ts => ts
        | None => []
        end in
      Ok {| error := None; key_value_pairs := Some kvp;
            tables := Some tbls; entities := Some [] |}
  end.

(** [json.dumps(validation, ensure_ascii=False)] *)
Definition json_validation (v : ValidationResult) : pystr :=
  py "{" ++ json_str (py "valid_fields") ++ py ": " ++ json_list (valid_fields v)
  ++ py ", " ++ json_str (py "invalid_fields") ++ py ": " ++ json_list (invalid_fields v)
  ++ py ", " ++ json_str (py "warnings") ++ py ": " ++ json_list (warnings v)
  ++ py "}".

Definition fraud_prompt (extracted_data : ExtractedData)
    (validation : ValidationResult) : pystr :=
  py "Analise os seguintes dados extraidos de um documento e identifique possiveis indicadores de fraude:"
  ++ [newline; newline]
  ++ py "Dados extraidos: " ++ json_dict (get_key_value_pairs extracted_data)
  ++ [newline]
  ++ py "Validacao: " ++ json_validation validation
  ++ [newline; newline]
  ++ py "Forneca uma analise estruturada com:" ++ [newline]
  ++ py "1. Indicadores de fraude encontrados" ++ [newline]
  ++ py "2. Nivel de suspeita (baixo, medio, alto)" ++ [newline]
  ++ py "3. Recomendacoes".

Definition _analyze_fraud_patterns (self : Analyzer)
    (extracted_data : ExtractedData) (validation : ValidationResult)
  : result FraudAnalysis :=
  match openai_client self with
  | None =>
      Ok {| analysis := py "OpenAI client nao configurado"; flags := [] |}
  | Some client =>
      let prompt := fraud_prompt extracted_data validation in
      choices <- client (openai_deployment self) prompt ;;
      match choices with
      | [] => Raise IndexError
      | first :: _ =>
          Ok {| analysis := first; flags := invalid_fields validation |}
      end
  end.

Record Report := {
  timestamp : datetime;
  document : pystr;
  extracted_data : ExtractedData;
  validation : ValidationResult;
  fraud_analysis : FraudAnalysis;
  risk_score : Z;
  risk_level : pystr
}.

(** [analyze_document]; the time stamp is kept as the clock's reading
    (the source renders it with [isoformat]), taken after the loop of
    [_validate_fields] has used one reading per item. *)
Definition analyze_document (self : Analyzer) (clock : nat -> datetime)
    (document_path : pystr) : result Report :=
  extracted <- _extract_document_data self document_path ;;
  validation_results <- _validate_fields clock extracted ;;
  fraud <- _analyze_fraud_patterns self extracted validation_results ;;
  let score := _calculate_risk_score validation_results fraud in
  Ok {| timestamp := clock (length (get_key_value_pairs extracted));
        document := document_path;
        extracted_data := extracted;
        validation := validation_results;
        fraud_analysis := fraud;
        risk_score := score;
        risk_level := _get_risk_level score |}.

End DocumentAnalyzer.
Import DocumentAnalyzer.

(** ** The constructor and the dashboard's colour *)

Record Environment := {
  getenv : pystr -> option pystr;
  DocumentIntelligenceClient :
    option (pystr -> pystr -> result (pystr -> result AnalyzeResult));
  AzureOpenAI :
    option (pystr -> pystr -> pystr
            -> result (pystr -> pystr -> result (list pystr)))
}.

(** Truth value of [os.getenv(...)]: set, and not the empty string. *)
Definition truthy (v : option pystr) : bool :=
  match v with
  | Some (_ :: _) => true
  | _ => false
  end.

Definition or_empty (v : option pystr) : pystr :=
  match v with
  | Some s => s
  | None => []
  end.

Definition __init__ (env : Environment) : result Analyzer :=
  let doc_key := getenv env (py "AZURE_DOCUMENT_INTELLIGENCE_KEY") in
  let doc_endpoint := getenv env (py "AZURE_DOCUMENT_INTELLIGENCE_ENDPOINT") in
  let openai_key := getenv env (py "AZURE_OPENAI_KEY") in
  let openai_endpoint := getenv env (py "AZURE_OPENAI_ENDPOINT") in
  let deployment :=
    match getenv env (py "AZURE_OPENAI_DEPLOYMENT") with
    | Some v => v
    | None => py "gpt-4"
    end in
  doc <-
    match DocumentIntelligenceClient env with
    | Some new_client =>
        if truthy doc_key && truthy doc_endpoint
        then c <- new_client (or_empty doc_endpoint) (or_empty doc_key) ;; Ok (Some c)
        else Ok None
    | None => Ok None
    end ;;
  text <-
    match AzureOpenAI env with
    | Some new_client =>
        if truthy openai_key && truthy openai_endpoint
        then c <- new_client (or_empty openai_key) (py "2024-02-01")
                    (or_empty openai_endpoint) ;;
             Ok (Some c)
        else Ok None
    | None => Ok None
    end ;;
  Ok {| doc_client := doc; openai_client := text; openai_deployment := deployment |}.

(** [color] in the dashboard's [main]: the colour chosen for a score. *)
Definition color (score : Z) : pystr :=
  if score <=? 20 then py "green"
  else if score <=? 50 then py "orange"
  else py "red".

(** ** Specification-side definitions and sample values *)

(** The digits of a string as the specification reads them: its
    characters '0' to '9', in order, everything else stripped. *)
Definition decimal_digits (s : pystr) : pystr := filter str_isdecimal s.

(** A string without superscript digits: the characters [str.isdigit]
    keeps are all among '0' to '9'. *)
Definition plain_digits (s : pystr) : Prop :=
  Forall (fun c => str_isdigit c = str_isdecimal c) s.

(** The superscript two, U+00B2: a digit character to [str.isdigit],
    not a decimal digit to [int()]. *)
Definition superscript_two : ascii := "178"%char.

(** The superscript one, U+00B9, likewise. *)
Definition superscript_one : ascii := "185"%char.

Definition sentinel_analysis : FraudAnalysis :=
  {| analysis := py "OpenAI client nao configurado"; flags := [] |}.

(** The size of a validation result: the labels of its three buckets
    together. *)
Definition n_labels (r : ValidationResult) : nat :=
  (length (valid_fields r) + length (invalid_fields r) + length (warnings r))%nat.

Definition echo_client : pystr -> pystr -> result (list pystr) :=
  fun _ prompt => Ok [prompt].

Definition configured_analyzer : Analyzer :=
  {| doc_client := None; openai_client := Some echo_client;
     openai_deployment := py "gpt-4" |}.

Definition unconfigured_analyzer : Analyzer :=
  {| doc_client := None; openai_client := None;
     openai_deployment := py "gpt-4" |}.

Definition no_key_value_pairs : ExtractedData :=
  {| error := Some (py "Document Intelligence client nao configurado");
     key_value_pairs := None; tables := None; entities := None |}.

Definition one_invalid_cpf : ValidationResult :=
  {| valid_fields := []; invalid_fields := [py "CPF invalido: 1"];
     warnings := [] |}.

(** Bucket-wise concatenation of two validation results. *)
Definition merge (a b : ValidationResult) : ValidationResult :=
  {| valid_fields := valid_fields a ++ valid_fields b;
     invalid_fields := invalid_fields a ++ invalid_fields b;
     warnings := warnings a ++ warnings b |}.

(** What each pair adds on its own: the outcome of its turn of the loop
    started from empty buckets, pair by pair in iteration order. *)
Fixpoint contributions (clock : nat -> datetime) (i : nat) (items : dict)
  : list (result ValidationResult) :=
  match items with
  | [] => []
  | (key, value) :: items' =>
      validate_entry (clock i) empty_results key value
      :: contributions clock (S i) items'
  end.

Definition merge_all (cs : list ValidationResult) : ValidationResult :=
  {| valid_fields := concat (map valid_fields cs);
     invalid_fields := concat (map invalid_fields cs);
     warnings := concat (map warnings cs) |}.

Definition digit_value (c : ascii) : Z := ord c - 48.

Definition digit_at (s : pystr) (j : nat) : Z := digit_value (nth j s "0"%char).

(** [sum over j < i of digit[j] * ((i + 1) - j)] *)
Definition cpf_weighted_sum (s : pystr) (i : nat) : Z :=
  fold_right Z.add 0
    (map (fun j => digit_at s j * ((Z.of_nat i + 1) - Z.of_nat j)) (seq 0 i)).

Definition cpf_expected_digit (s : pystr) (i : nat) : Z :=
  (cpf_weighted_sum s i * 10 mod 11) mod 10.

(** The string is one character repeated. *)
Definition one_repeated (s : pystr) : bool :=
  match s with
  | [] => true
  | c :: _ => forallb (fun x => ascii_eqb x c) s
  end.

(** The CPF rule in the specification's words, on a string of decimal
    digits: eleven digits, not one digit repeated, and both check
    positions hold the expected digit. *)
Definition cpf_rule (s : pystr) : bool :=
  Nat.eqb (length s) 11
  && negb (one_repeated s)
  && forallb (fun i => digit_at s i =? cpf_expected_digit s i) [9%nat; 10%nat].

Inductive field_kind := KindCPF | KindCNPJ | KindDate | KindNone.

(** The kind of a key: substring match on the lower-cased key, CPF
    before CNPJ before date. *)
Definition classify (key : pystr) : field_kind :=
  let k := lower key in
  if contains (py "cpf") k then KindCPF
  else if contains (py "cnpj") k then KindCNPJ
  else if contains (py "data") k || contains (py "date") k then KindDate
  else KindNone.

Definition passes (outcome : result bool) : bool :=
  match outcome with
  | Ok true => true
  | _ => false
  end.

Definition only_valid (label : pystr) : ValidationResult :=
  {| valid_fields := [label]; invalid_fields := []; warnings := [] |}.

Definition only_invalid (label : pystr) : ValidationResult :=
  {| valid_fields := []; invalid_fields := [label]; warnings := [] |}.

Definition only_warning (label : pystr) : ValidationResult :=
  {| valid_fields := []; invalid_fields := []; warnings := [label] |}.

(** The label a pair gets, in the specification's words. *)
Definition label_of (now : datetime) (key value : pystr) : ValidationResult :=
  match classify key with
  | KindCPF =>
      if passes (_validate_cpf value) then only_valid (py "CPF: " ++ value)
      else only_invalid (py "CPF invalido: " ++ value)
  | KindCNPJ =>
      if _validate_cnpj value then only_valid (py "CNPJ: " ++ value)
      else only_invalid (py "CNPJ invalido: " ++ value)
  | KindDate =>
      if passes (_validate_date now value) then only_valid (py "Data: " ++ value)
      else only_warning (py "Data suspeita: " ++ value)
  | KindNone => empty_results
  end.

Fixpoint labels (clock : nat -> datetime) (i : nat) (items : dict)
  : list ValidationResult :=
  match items with
  | [] => []
  | (key, value) :: items' =>
      label_of (clock i) key value :: labels clock (S i) items'
  end.

(** One layout tried on a string: the date, or nothing. *)
Definition parse_as (fmt s : pystr) : option datetime :=
  match strptime s fmt with
  | Ok date => Some date
  | Raise _ => None
  end.

(** The four layouts in their fixed order, day/month/year,
    year-month-day, day-month-year, month/day/year: the first one that
    parses gives the date. *)
Definition first_parse (s : pystr) : option datetime :=
  match parse_as (py "%d/%m/%Y") s with
  | Some date => Some date
  | None =>
  match parse_as (py "%Y-%m-%d") s with
  | Some date => Some date
  | None =>
  match parse_as (py "%d-%m-%Y") s with
  | Some date => Some date
  | None => parse_as (py "%m/%d/%Y") s
  end end end.

Definition digit_char (k : Z) : ascii := ascii_of_N (Z.to_N (48 + k)).

(** [n] written with two, or four, decimal digits. *)
Definition two_digits (n : Z) : pystr :=
  [digit_char (n / 10); digit_char (n mod 10)].

Definition four_digits (n : Z) : pystr :=
  [digit_char (n / 1000); digit_char (n / 100 mod 10);
   digit_char (n / 10 mod 10); digit_char (n mod 10)].

Inductive layout := DayMonthYear | YearMonthDay | DayMonthYearDashed | MonthDayYear.

(** A date written in one of the four layouts. *)
Definition render (l : layout) (y m d : Z) : pystr :=
  match l with
  | DayMonthYear => two_digits d ++ py "/" ++ two_digits m ++ py "/" ++ four_digits y
  | YearMonthDay => four_digits y ++ py "-" ++ two_digits m ++ py "-" ++ two_digits d
  | DayMonthYearDashed => two_digits d ++ py "-" ++ two_digits m ++ py "-" ++ four_digits y
  | MonthDayYear => two_digits m ++ py "/" ++ two_digits d ++ py "/" ++ four_digits y
  end.

(** A text some data makes the item match. *)
Definition item_text (it : fmt_item) (t : pystr) : Prop :=
  exists s r, In (t, r) (rmatch (item_regex it) s).


Definition a_november_morning : datetime := mk_datetime 2026 11 4 9 45 0 0.

Definition sample_pairs : dict :=
  [(py "CPF", py "111.444.777-35");
   (py "Nome", py "Maria");
   (py "CNPJ da empresa", py "12");
   (py "Data de emissao", py "31/12/2030")].

Definition sample_extracted : ExtractedData :=
  {| error := None; key_value_pairs := Some sample_pairs;
     tables := Some []; entities := Some [] |}.

Definition sample_validation : ValidationResult :=
  {| valid_fields := [py "CPF: 111.444.777-35"];
     invalid_fields := [py "CNPJ invalido: 12"];
     warnings := [py "Data suspeita: 31/12/2030"] |}.

(** [s] with the character at index [j] replaced by [c]. *)
Definition alter (j : nat) (c : ascii) (s : pystr) : pystr :=
  firstn j s ++ c :: skipn (S j) s.

(** The check digit a weighted sum calls for. *)
Definition chk (total : Z) : Z := (total * 10 mod 11) mod 10.

(** An item reads a text first when, whatever follows, its first match
    on the text is the text. *)
Definition reads_first (it : fmt_item) (t : pystr) : Prop :=
  forall rest, exists others,
    rmatch (item_regex it) (t ++ rest) = (t, rest) :: others.

Definition superscript_pairs : ExtractedData :=
  {| error := None;
     key_value_pairs :=
       Some [(py "Data", py "01/01/2020");
             (py "CPF", py "111.444.777-3" ++ [superscript_two])];
     tables := Some []; entities := Some [] |}.

(** Two entries alike up to the case of their keys: the keys have the
    same lower-cased form and the values are equal. *)
Definition same_up_to_case (a b : pystr * pystr) : Prop :=
  lower (fst a) = lower (fst b) /\ snd a = snd b.

(** The sample mapping with its keys written in another case; both it
    and [sample_pairs] have pairwise distinct keys. *)
Definition shouted_pairs : dict :=
  [(py "cpf", py "111.444.777-35");
   (py "NOME", py "Maria");
   (py "cnpj da EMPRESA", py "12");
   (py "DATA DE EMISSAO", py "31/12/2030")].

Definition shouted_extracted : ExtractedData :=
  {| error := None; key_value_pairs := Some shouted_pairs;
     tables := Some []; entities := Some [] |}.

(** The place of a level on the scale BAIXO, MEDIO, ALTO, CRITICO. *)
Definition level_rank (level : pystr) : Z :=
  if str_eqb level (py "BAIXO") then 0
  else if str_eqb level (py "MEDIO") then 1
  else if str_eqb level (py "ALTO") then 2
  else 3.

Definition sample_doc_client : pystr -> result AnalyzeResult :=
  fun _ =>
    Ok {| result_key_value_pairs :=
            Some [ {| pair_key := Some (py "CNPJ"); pair_value := Some (py "12") |};
                   {| pair_key := Some (py "CPF"); pair_value := Some (py "123") |} ];
          result_tables := None |}.

Definition full_analyzer : Analyzer :=
  {| doc_client := Some sample_doc_client; openai_client := Some echo_client;
     openai_deployment := py "gpt-4" |}.

Definition half_analyzer : Analyzer :=
  {| doc_client := Some sample_doc_client; openai_client := None;
     openai_deployment := py "gpt-4" |}.

Definition run (self : Analyzer) : result Report :=
  analyze_document self (fun _ => a_november_morning) (py "doc.pdf").

Definition report_of (self : Analyzer) (default : Report) : Report :=
  match run self with
  | Ok r => r
  | Raise _ => default
  end.

Definition blank_report : Report :=
  {| timestamp := a_november_morning; document := [];
     extracted_data := no_key_value_pairs; validation := empty_results;
     fraud_analysis := sentinel_analysis; risk_score := 0; risk_level := [] |}.

Definition failing_doc_client : pystr -> result AnalyzeResult :=
  fun _ => Raise ServiceError.

Definition silent_text_client : pystr -> pystr -> result (list pystr) :=
  fun _ _ => Ok [].

Definition broken_reader : Analyzer :=
  {| doc_client := Some failing_doc_client; openai_client := None;
     openai_deployment := py "gpt-4" |}.

Definition silent_narrator : Analyzer :=
  {| doc_client := None; openai_client := Some silent_text_client;
     openai_deployment := py "gpt-4" |}.

(** The entry a entry of the service's answer gives: a missing key reads
    "unknown", a missing value reads as the empty string. *)
Definition pair_entry (entry : KeyValuePair) : pystr * pystr :=
  (match pair_key entry with Some k => k | None => py "unknown" end,
   match pair_value entry with Some v => v | None => [] end).

(** The value of the last entry filed under [key], if there is one. *)
Fixpoint last_value (key : pystr) (pairs : list KeyValuePair) : option pystr :=
  match pairs with
  | [] => None
  | entry :: rest =>
      match last_value key rest with
      | Some v => Some v
      | None =>
          if str_eqb (fst (pair_entry entry)) key
          then Some (snd (pair_entry entry)) else None
      end
  end.

Definition repeated_key_client : pystr -> result AnalyzeResult :=
  fun _ =>
    Ok {| result_key_value_pairs :=
            Some [ {| pair_key := Some (py "CPF"); pair_value := Some (py "1") |};
                   {| pair_key := None; pair_value := Some (py "x") |};
                   {| pair_key := Some (py "CPF"); pair_value := None |} ];
          result_tables := None |}.

Definition repeated_key_reader : Analyzer :=
  {| doc_client := Some repeated_key_client; openai_client := None;
     openai_deployment := py "gpt-4" |}.

(** The report of an analyzer without clients. *)
Definition degraded_report (clock : nat -> datetime) (path : pystr) : Report :=
  {| timestamp := clock 0%nat;
     document := path;
     extracted_data := no_key_value_pairs;
     validation := empty_results;
     fraud_analysis := sentinel_analysis;
     risk_score := 0;
     risk_level := py "BAIXO" |}.

Definition bare_environment : Environment :=
  {| getenv := fun _ => None;
     DocumentIntelligenceClient := None;
     AzureOpenAI := None |}.

(** ** The embedding on concrete inputs

    Each value below is what CPython 3.11 gives on the same input. *)

Example isdigit_superscript :
  str_isdigit superscript_two = true /\ str_isdecimal superscript_two = false
  /\ py_int [superscript_two] = Raise ValueError.
Proof. repeat split. Qed.

Example lower_key : lower (py "CPF do Titular") = py "cpf do titular".
Proof. reflexivity. Qed.

Example strptime_single_digits :
  strptime (py "1/2/2020") (py "%d/%m/%Y") = Ok (mk_datetime 2020 2 1 0 0 0 0).
Proof. reflexivity. Qed.

Example strptime_space_day :
  strptime (py "1/ 2/2020") (py "%m/%d/%Y") = Ok (mk_datetime 2020 1 2 0 0 0 0).
Proof. reflexivity. Qed.

Example strptime_leap_day :
  strptime (py "29/02/2020") (py "%d/%m/%Y") = Ok (mk_datetime 2020 2 29 0 0 0 0)
  /\ strptime (py "31/02/2020") (py "%d/%m/%Y") = Raise ValueError.
Proof. split; reflexivity. Qed.

Example strptime_data_left_over :
  strptime (py "2020-01-011") (py "%Y-%m-%d") = Raise ValueError
  /\ strptime (py "2020-01-32") (py "%Y-%m-%d") = Raise ValueError.
Proof. split; reflexivity. Qed.

Example strptime_no_match :
  strptime (py "12/31/2026") (py "%d/%m/%Y") = Raise ValueError
  /\ strptime (py "0000-01-01") (py "%Y-%m-%d") = Raise ValueError.
Proof. split; reflexivity. Qed.

Example json_validation_sample :
  json_validation sample_validation
  = py "{" ++ [dquote] ++ py "valid_fields" ++ [dquote] ++ py ": ["
    ++ [dquote] ++ py "CPF: 111.444.777-35" ++ [dquote] ++ py "], "
    ++ [dquote] ++ py "invalid_fields" ++ [dquote] ++ py ": ["
    ++ [dquote] ++ py "CNPJ invalido: 12" ++ [dquote] ++ py "], "
    ++ [dquote] ++ py "warnings" ++ [dquote] ++ py ": ["
    ++ [dquote] ++ py "Data suspeita: 31/12/2030" ++ [dquote] ++ py "]}".
Proof. reflexivity. Qed.

Example validate_fields_sample :
  _validate_fields (fun _ => a_november_morning) sample_extracted
  = Ok sample_validation.
Proof. reflexivity. Qed.

(** ** Risk score and risk level *)

Lemma len_nonneg {A} (l : list A) : 0 <= len l.
Proof. unfold len. lia. Qed.

(** C1: the risk score is [min(100, 25*len(invalid_fields) +
    10*len(warnings) + 15*len(flags))]; it lies in 0..100; and with five
    invalid fields it is exactly 100, with level CRITICO. *)
Theorem risk_score_formula (v : ValidationResult) (fa : FraudAnalysis) :
  _calculate_risk_score v fa
    = Z.min 100 (25 * len (invalid_fields v) + 10 * len (warnings v)
                 + 15 * len (flags fa))
  /\ 0 <= _calculate_risk_score v fa <= 100
  /\ (length (invalid_fields v) = 5%nat ->
      _calculate_risk_score v fa = 100
      /\ _get_risk_level (_calculate_risk_score v fa) = py "CRITICO").
Proof.
  pose proof (len_nonneg (invalid_fields v)) as Hi.
  pose proof (len_nonneg (warnings v)) as Hw.
  pose proof (len_nonneg (flags fa)) as Hf.
  unfold _calculate_risk_score.
  split; [lia|]. split; [lia|].
  intros H5.
  assert (E : Z.min (0 + len (invalid_fields v) * 25 + len (warnings v) * 10
                     + len (flags fa) * 15) 100 = 100).
  { unfold len in *. rewrite H5 in *. lia. }
  rewrite E. split; reflexivity.
Qed.

Lemma risk_score_formula_witness :
  _calculate_risk_score
    {| valid_fields := [];
       invalid_fields := [py "a"; py "b"; py "c"; py "d"; py "e"];
       warnings := [] |}
    {| analysis := []; flags := [] |} = 100.
Proof.
  exact (proj1 (proj2 (proj2 (risk_score_formula
    {| valid_fields := [];
       invalid_fields := [py "a"; py "b"; py "c"; py "d"; py "e"];
       warnings := [] |}
    {| analysis := []; flags := [] |})) eq_refl)).
Defined.

(** C2: the level is BAIXO up to 20, MEDIO from 21 to 50, ALTO from 51
    to 75 and CRITICO above 75; two invalid fields, one warning and one
    flag score 75, which is ALTO. *)
Theorem risk_level_bands (score : Z) :
  (score <= 20 -> _get_risk_level score = py "BAIXO")
  /\ (21 <= score <= 50 -> _get_risk_level score = py "MEDIO")
  /\ (51 <= score <= 75 -> _get_risk_level score = py "ALTO")
  /\ (75 < score -> _get_risk_level score = py "CRITICO")
  /\ (forall v fa,
        length (invalid_fields v) = 2%nat ->
        length (warnings v) = 1%nat ->
        length (flags fa) = 1%nat ->
        _calculate_risk_score v fa = 75
        /\ _get_risk_level (_calculate_risk_score v fa) = py "ALTO").
Proof.
  unfold _get_risk_level.
  split; [|split; [|split; [|split; [|split]]]]; intros.
  - destruct (Z.leb_spec score 20); [reflexivity|lia].
  - destruct (Z.leb_spec score 20); [lia|].
    destruct (Z.leb_spec score 50); [reflexivity|lia].
  - destruct (Z.leb_spec score 20); [lia|].
    destruct (Z.leb_spec score 50); [lia|].
    destruct (Z.leb_spec score 75); [reflexivity|lia].
  - destruct (Z.leb_spec score 20); [lia|].
    destruct (Z.leb_spec score 50); [lia|].
    destruct (Z.leb_spec score 75); [lia|reflexivity].
  - unfold _calculate_risk_score, len. rewrite H, H0, H1. reflexivity.
  - unfold _calculate_risk_score, len. rewrite H, H0, H1. reflexivity.
Qed.

Lemma risk_level_bands_witness :
  _get_risk_level 20 = py "BAIXO" /\ _get_risk_level 21 = py "MEDIO"
  /\ _get_risk_level 75 = py "ALTO" /\ _get_risk_level 76 = py "CRITICO".
Proof.
  split; [|split; [|split]].
  - apply (proj1 (risk_level_bands 20)). lia.
  - apply (proj1 (proj2 (risk_level_bands 21))). lia.
  - apply (proj1 (proj2 (proj2 (risk_level_bands 75)))). lia.
  - apply (proj1 (proj2 (proj2 (proj2 (risk_level_bands 76))))). lia.
Defined.

(** ** Identifier validators *)

Lemma digits_only_idempotent (s : pystr) :
  digits_only (digits_only s) = digits_only s.
Proof.
  unfold digits_only. induction s as [|c s IH]; simpl; [reflexivity|].
  destruct (str_isdigit c) eqn:E; simpl; [rewrite E, IH|]; auto.
Qed.

Lemma digits_only_plain (s : pystr) :
  plain_digits s -> digits_only s = decimal_digits s.
Proof.
  unfold digits_only, decimal_digits.
  induction 1 as [|c s Hc _ IH]; simpl; [reflexivity|].
  rewrite Hc, IH. reflexivity.
Qed.

Lemma digits_only_all_digits (s : pystr) :
  Forall (fun c => str_isdigit c = true) s -> digits_only s = s.
Proof.
  unfold digits_only. induction 1 as [|c s Hc _ IH]; simpl; [reflexivity|].
  rewrite Hc, IH. reflexivity.
Qed.

(** On a string without superscript digits [_validate_cpf] sees only the
    digits '0' to '9': the string and its digits get the same outcome. *)
Lemma validate_cpf_plain_formatting (s : pystr) :
  plain_digits s -> _validate_cpf s = _validate_cpf (decimal_digits s).
Proof.
  intros H. unfold _validate_cpf.
  rewrite <- (digits_only_plain s H), digits_only_idempotent. reflexivity.
Qed.

(** C4: [_validate_cpf] is not invariant under formatting.  The
    formatted number "111.444.777-35" followed by a superscript two has
    the digits "11144477735"; the digits alone are accepted, the string
    is refused, because [str.isdigit] keeps the superscript and twelve
    characters are left.  With the superscript in the place of the last
    digit the string raises [ValueError] while its digits "1114447773"
    are refused.  Without the superscript the formatted number and its
    digits are both accepted. *)
Theorem validate_cpf_formatting_superscript :
  decimal_digits (py "111.444.777-35" ++ [superscript_two]) = py "11144477735"
  /\ _validate_cpf (py "111.444.777-35" ++ [superscript_two]) = Ok false
  /\ _validate_cpf (py "11144477735") = Ok true
  /\ decimal_digits (py "111.444.777-3" ++ [superscript_two]) = py "1114447773"
  /\ _validate_cpf (py "111.444.777-3" ++ [superscript_two]) = Raise ValueError
  /\ _validate_cpf (py "1114447773") = Ok false
  /\ _validate_cpf (py "111.444.777-35") = Ok true.
Proof. repeat (split; [reflexivity|]). reflexivity. Qed.

(** On a string without superscript digits [_validate_cnpj] is true
    exactly when the string has 14 digits '0' to '9'; no check digit is
    read. *)
Lemma validate_cnpj_plain_count (s : pystr) :
  plain_digits s ->
  (_validate_cnpj s = true <-> length (decimal_digits s) = 14%nat).
Proof.
  intros H. unfold _validate_cnpj. rewrite (digits_only_plain s H).
  destruct (Nat.eqb (length (decimal_digits s)) 14) eqn:E.
  - apply Nat.eqb_eq in E. tauto.
  - apply Nat.eqb_neq in E. split; [discriminate|contradiction].
Qed.

(** C5: [_validate_cnpj] counts the characters [str.isdigit] keeps, not
    the digits '0' to '9'.  A formatted number with thirteen digits and a
    superscript two is accepted, and so are fourteen superscript ones,
    which hold no digit at all.  Strings of fourteen digits are accepted
    whatever their last two digits are. *)
Theorem validate_cnpj_counts_superscripts :
  length (decimal_digits (py "12.345.678/0001-9" ++ [superscript_two])) = 13%nat
  /\ _validate_cnpj (py "12.345.678/0001-9" ++ [superscript_two]) = true
  /\ length (decimal_digits (repeat superscript_one 14)) = 0%nat
  /\ _validate_cnpj (repeat superscript_one 14) = true
  /\ _validate_cnpj (py "00000000000000") = true
  /\ _validate_cnpj (py "12.345.678/0001-00") = true
  /\ _validate_cnpj (py "12.345.678/0001-0") = false.
Proof. repeat (split; [reflexivity|]). reflexivity. Qed.

(** ** Fraud narrative *)

(** C8: without a text-generation client the answer is the fixed
    sentinel with no flags, whatever the input; with a client that
    answers, the flags are the validation's [invalid_fields] and the
    analysis is the first choice's text, so the flags do not depend on
    the narrative. *)
Theorem fraud_patterns_flags (self : Analyzer) (ed : ExtractedData)
    (v : ValidationResult) :
  (openai_client self = None ->
   _analyze_fraud_patterns self ed v = Ok sentinel_analysis)
  /\ (forall client fa,
        openai_client self = Some client ->
        _analyze_fraud_patterns self ed v = Ok fa ->
        flags fa = invalid_fields v)
  /\ (forall client first others,
        openai_client self = Some client ->
        client (openai_deployment self) (fraud_prompt ed v) = Ok (first :: others) ->
        _analyze_fraud_patterns self ed v
          = Ok {| analysis := first; flags := invalid_fields v |}).
Proof.
  unfold _analyze_fraud_patterns.
  split; [|split].
  - intros H. rewrite H. reflexivity.
  - intros client fa H. rewrite H.
    destruct (client _ _) as [[|first others]|e]; simpl; intros E;
      inversion E; reflexivity.
  - intros client first others H E. rewrite H, E. reflexivity.
Qed.

Lemma fraud_patterns_flags_witness :
  _analyze_fraud_patterns unconfigured_analyzer no_key_value_pairs
    one_invalid_cpf = Ok sentinel_analysis
  /\ _analyze_fraud_patterns configured_analyzer no_key_value_pairs
       one_invalid_cpf
     = Ok {| analysis := fraud_prompt no_key_value_pairs one_invalid_cpf;
             flags := invalid_fields one_invalid_cpf |}.
Proof.
  split.
  - exact (proj1 (fraud_patterns_flags unconfigured_analyzer
                    no_key_value_pairs one_invalid_cpf) eq_refl).
  - exact (proj2 (proj2 (fraud_patterns_flags configured_analyzer
                           no_key_value_pairs one_invalid_cpf))
             echo_client (fraud_prompt no_key_value_pairs one_invalid_cpf) []
             eq_refl eq_refl).
Defined.

(** ** Empty and absent key-value pairs *)

(** C9: when the extracted data has no key-value pairs, because the
    mapping is empty or because the unconfigured extraction returned only
    its error entry, [_validate_fields] returns three empty buckets, and
    the score that follows is 0, with level BAIXO. *)
Theorem empty_pairs_score_zero (self : Analyzer) (clock : nat -> datetime)
    (ed : ExtractedData) :
  (key_value_pairs ed = None \/ key_value_pairs ed = Some [] ->
   _validate_fields clock ed = Ok empty_results
   /\ forall fa,
        _analyze_fraud_patterns self ed empty_results = Ok fa ->
        _calculate_risk_score empty_results fa = 0
        /\ _get_risk_level (_calculate_risk_score empty_results fa) = py "BAIXO")
  /\ (doc_client self = None ->
      forall path,
        _extract_document_data self path = Ok no_key_value_pairs
        /\ forall report,
             analyze_document self clock path = Ok report ->
             validation report = empty_results
             /\ risk_score report = 0
             /\ risk_level report = py "BAIXO").
Proof.
  assert (Hflags : forall ed' fa,
            _analyze_fraud_patterns self ed' empty_results = Ok fa ->
            flags fa = []).
  { intros ed' fa H. unfold _analyze_fraud_patterns in H.
    destruct (openai_client self) as [client|].
    - destruct (client _ _) as [[|first others]|e]; simpl in H;
        inversion H; reflexivity.
    - inversion H. reflexivity. }
  split.
  - intros Hk.
    assert (E : get_key_value_pairs ed = []).
    { unfold get_key_value_pairs. destruct Hk as [-> | ->]; reflexivity. }
    split.
    + unfold _validate_fields. rewrite E. reflexivity.
    + intros fa Hfa. apply Hflags in Hfa.
      unfold _calculate_risk_score. rewrite Hfa. split; reflexivity.
  - intros Hd path.
    assert (Ex : _extract_document_data self path = Ok no_key_value_pairs).
    { unfold _extract_document_data. rewrite Hd. reflexivity. }
    split; [exact Ex|].
    intros report H. unfold analyze_document in H. rewrite Ex in H.
    simpl in H.
    destruct (_analyze_fraud_patterns self no_key_value_pairs empty_results)
      as [fa|e] eqn:Efa; simpl in H; inversion H; subst; simpl.
    apply Hflags in Efa. unfold _calculate_risk_score. rewrite Efa.
    repeat split.
Qed.

Lemma empty_pairs_score_zero_witness :
  _validate_fields (fun _ => mk_datetime 2026 11 4 9 45 0 0)
    {| error := None; key_value_pairs := Some []; tables := Some [];
       entities := Some [] |} = Ok empty_results
  /\ _extract_document_data unconfigured_analyzer (py "doc.pdf")
     = Ok no_key_value_pairs.
Proof.
  split.
  - apply (proj1 (empty_pairs_score_zero unconfigured_analyzer
                    (fun _ => mk_datetime 2026 11 4 9 45 0 0)
                    {| error := None; key_value_pairs := Some [];
                       tables := Some []; entities := Some [] |})).
    right. reflexivity.
  - apply (proj2 (empty_pairs_score_zero unconfigured_analyzer
                    (fun _ => mk_datetime 2026 11 4 9 45 0 0)
                    no_key_value_pairs) eq_refl (py "doc.pdf")).
Defined.

(** ** One label per pair *)

Lemma merge_empty_r (r : ValidationResult) : merge r empty_results = r.
Proof. destruct r; unfold merge; simpl. rewrite !app_nil_r. reflexivity. Qed.

Lemma merge_assoc (a b c : ValidationResult) :
  merge (merge a b) c = merge a (merge b c).
Proof. unfold merge; simpl. rewrite !app_assoc. reflexivity. Qed.

Lemma validate_entry_merge (now : datetime) (r : ValidationResult)
    (key value : pystr) :
  validate_entry now r key value
  = c <- validate_entry now empty_results key value ;; Ok (merge r c).
Proof.
  unfold validate_entry, append_valid, append_invalid, append_warning, merge.
  destruct (contains (py "cpf") (lower key)).
  { destruct (_validate_cpf value) as [[|]|e]; simpl;
      rewrite ?app_nil_r; reflexivity. }
  destruct (contains (py "cnpj") (lower key)).
  { destruct (_validate_cnpj value); simpl; rewrite ?app_nil_r; reflexivity. }
  destruct (contains (py "data") (lower key) || contains (py "date") (lower key)).
  { destruct (_validate_date now value) as [[|]|e]; simpl;
      rewrite ?app_nil_r; reflexivity. }
  simpl. rewrite !app_nil_r. destruct r; reflexivity.
Qed.

Lemma validate_entry_one_label (now : datetime) (key value : pystr)
    (c : ValidationResult) :
  validate_entry now empty_results key value = Ok c -> (n_labels c <= 1)%nat.
Proof.
  unfold validate_entry, append_valid, append_invalid, append_warning.
  destruct (contains (py "cpf") (lower key)).
  { destruct (_validate_cpf value) as [[|]|e]; simpl; intros E;
      inversion E; subst; unfold n_labels; simpl; lia. }
  destruct (contains (py "cnpj") (lower key)).
  { destruct (_validate_cnpj value); simpl; intros E;
      inversion E; subst; unfold n_labels; simpl; lia. }
  destruct (contains (py "data") (lower key) || contains (py "date") (lower key)).
  { destruct (_validate_date now value) as [[|]|e]; simpl; intros E;
      inversion E; subst; unfold n_labels; simpl; lia. }
  intros E; inversion E; subst; unfold n_labels; simpl; lia.
Qed.

Lemma n_labels_merge (a b : ValidationResult) :
  n_labels (merge a b) = (n_labels a + n_labels b)%nat.
Proof. unfold n_labels, merge; simpl. rewrite !length_app. lia. Qed.

Lemma n_labels_merge_all (cs : list ValidationResult) :
  Forall (fun c => (n_labels c <= 1)%nat) cs ->
  (n_labels (merge_all cs) <= length cs)%nat.
Proof.
  induction 1 as [|c cs Hc _ IH]; [unfold n_labels; simpl; lia|].
  change (merge_all (c :: cs)) with (merge c (merge_all cs)).
  rewrite n_labels_merge. simpl. lia.
Qed.

Lemma validate_loop_contributions (clock : nat -> datetime) (items : dict) :
  forall i r0 r,
    validate_loop clock i r0 items = Ok r ->
    exists cs,
      map Ok cs = contributions clock i items
      /\ r = merge r0 (merge_all cs).
Proof.
  induction items as [|[key value] items IH]; intros i r0 r H; simpl in H.
  - inversion H; subst. exists []. split; [reflexivity|].
    symmetry. apply merge_empty_r.
  - rewrite validate_entry_merge in H.
    destruct (validate_entry (clock i) empty_results key value) as [c|e] eqn:E;
      simpl in H; [|discriminate].
    destruct (IH _ _ _ H) as (cs & Hcs & Hr).
    exists (c :: cs). split.
    + simpl. rewrite E, Hcs. reflexivity.
    + rewrite Hr, merge_assoc. reflexivity.
Qed.

Lemma contributions_one_label (clock : nat -> datetime) (items : dict) :
  forall i cs,
    map Ok cs = contributions clock i items ->
    Forall (fun c => (n_labels c <= 1)%nat) cs /\ length cs = length items.
Proof.
  induction items as [|[key value] items IH]; intros i cs H; simpl in H.
  - destruct cs; [split; [constructor|reflexivity]|discriminate].
  - destruct cs as [|c cs]; [discriminate|]. simpl in H.
    inversion H as [[Hc Hcs]].
    destruct (IH _ _ Hcs) as [Hall Hlen]. split.
    + constructor; [|exact Hall].
      eapply validate_entry_one_label. symmetry. exact Hc.
    + simpl. rewrite Hlen. reflexivity.
Qed.

(** C10: in the result of [_validate_fields] every pair adds at most one
    label, to one bucket: the buckets are the concatenation, in iteration
    order, of the pairs' own contributions, each of at most one label, so
    the three buckets together hold at most as many labels as there are
    pairs. *)
Theorem one_label_per_pair (clock : nat -> datetime) (ed : ExtractedData)
    (r : ValidationResult) :
  _validate_fields clock ed = Ok r ->
  exists cs : list ValidationResult,
    map Ok cs = contributions clock 0 (get_key_value_pairs ed)
    /\ length cs = length (get_key_value_pairs ed)
    /\ Forall (fun c => (n_labels c <= 1)%nat) cs
    /\ r = merge_all cs
    /\ (n_labels r <= length (get_key_value_pairs ed))%nat.
Proof.
  unfold _validate_fields. intros H.
  destruct (validate_loop_contributions _ _ _ _ _ H) as (cs & Hcs & Hr).
  destruct (contributions_one_label _ _ _ _ Hcs) as [Hall Hlen].
  assert (Er : r = merge_all cs).
  { rewrite Hr. destruct (merge_all cs); reflexivity. }
  exists cs. repeat split; try assumption.
  rewrite Er, <- Hlen. apply n_labels_merge_all. exact Hall.
Qed.

Lemma one_label_per_pair_witness :
  _validate_fields (fun _ => a_november_morning) sample_extracted
    = Ok sample_validation
  /\ (n_labels sample_validation <= length sample_pairs)%nat.
Proof.
  destruct (one_label_per_pair (fun _ => a_november_morning)
              sample_extracted sample_validation eq_refl)
    as (cs & _ & _ & _ & _ & H).
  split; [reflexivity|exact H].
Defined.

(** ** The CPF check digits *)

Lemma decimal_not_space (c : ascii) :
  str_isdecimal c = true -> str_isspace c = false.
Proof.
  unfold str_isdecimal, str_isspace. intros H.
  apply andb_true_iff in H. destruct H as [H1 H2].
  apply Z.leb_le in H1. apply Z.leb_le in H2.
  repeat match goal with
  | |- context [?a <=? ?b] => destruct (Z.leb_spec a b); try lia
  | |- context [?a =? ?b] => destruct (Z.eqb_spec a b); try lia
  end.
  all: try reflexivity.
Qed.

Lemma py_int_decimal (c : ascii) :
  str_isdecimal c = true -> py_int [c] = Ok (digit_value c).
Proof.
  intros H. unfold py_int, strip. simpl.
  rewrite (decimal_not_space c H). simpl.
  rewrite (decimal_not_space c H). simpl.
  rewrite H. reflexivity.
Qed.

Lemma gen_sum_ok (f : nat -> result Z) (g : nat -> Z) (js : list nat) :
  (forall j, In j js -> f j = Ok (g j)) ->
  forall acc, gen_sum f js acc = Ok (acc + fold_right Z.add 0 (map g js)).
Proof.
  induction js as [|j js IH]; intros Hf acc; simpl.
  - f_equal. lia.
  - rewrite (Hf j) by (left; reflexivity). simpl.
    rewrite IH by (intros; apply Hf; right; assumption).
    f_equal. lia.
Qed.

Section DecimalDigits.

Variable cpf : pystr.
Hypothesis all_decimal : Forall (fun c => str_isdecimal c = true) cpf.

Lemma str_index_decimal (j : nat) :
  (j < length cpf)%nat ->
  str_index cpf j = Ok (nth j cpf "0"%char)
  /\ str_isdecimal (nth j cpf "0"%char) = true.
Proof.
  intros Hj. split.
  - unfold str_index. rewrite (nth_error_nth' cpf "0"%char Hj). reflexivity.
  - rewrite Forall_forall in all_decimal. apply all_decimal.
    apply nth_In. exact Hj.
Qed.

Lemma cpf_term_decimal (i j : nat) :
  (j < length cpf)%nat ->
  cpf_term cpf i j = Ok (digit_at cpf j * ((Z.of_nat i + 1) - Z.of_nat j)).
Proof.
  intros Hj. destruct (str_index_decimal j Hj) as [E D].
  unfold cpf_term. rewrite E. simpl. rewrite (py_int_decimal _ D). reflexivity.
Qed.

Lemma cpf_check_loop_decimal (todo : list nat) :
  (forall i, In i todo -> (i < length cpf)%nat) ->
  cpf_check_loop cpf todo
  = Ok (forallb (fun i => digit_at cpf i =? cpf_expected_digit cpf i) todo).
Proof.
  induction todo as [|i todo IH]; intros Hin; [reflexivity|].
  assert (Hi : (i < length cpf)%nat) by (apply Hin; left; reflexivity).
  simpl cpf_check_loop.
  rewrite (gen_sum_ok _ (fun j => digit_at cpf j * ((Z.of_nat i + 1) - Z.of_nat j))).
  2:{ intros j Hj. apply in_seq in Hj. apply cpf_term_decimal. lia. }
  destruct (str_index_decimal i Hi) as [E D].
  simpl. rewrite E. simpl. rewrite (py_int_decimal _ D). simpl.
  fold (cpf_weighted_sum cpf i). fold (cpf_expected_digit cpf i).
  fold (digit_at cpf i).
  destruct (digit_at cpf i =? cpf_expected_digit cpf i); simpl.
  - apply IH. intros k Hk. apply Hin. right. exact Hk.
  - reflexivity.
Qed.

End DecimalDigits.

Lemma str_eqb_repeat (c : ascii) (s : pystr) :
  str_eqb s (repeat c (length s)) = forallb (fun x => ascii_eqb x c) s.
Proof.
  induction s as [|x s IH]; simpl; [reflexivity|]. rewrite IH. reflexivity.
Qed.

(** On every input whose digit characters are all decimal digits,
    [_validate_cpf] returns, and what it returns is the CPF rule applied
    to the digits. *)
Theorem validate_cpf_decimal_rule (s : pystr) :
  Forall (fun c => str_isdecimal c = true) (digits_only s) ->
  _validate_cpf s = Ok (cpf_rule (digits_only s)).
Proof.
  intros Hdec. unfold _validate_cpf, cpf_rule.
  destruct (Nat.eqb (length (digits_only s)) 11) eqn:El;
    cbn [negb orb andb]; [|reflexivity].
  apply Nat.eqb_eq in El.
  assert (Er : str_eqb (digits_only s) (repeat (hd "000"%char (digits_only s)) 11)
               = one_repeated (digits_only s)).
  { rewrite <- El. rewrite str_eqb_repeat.
    destruct (digits_only s); [discriminate|reflexivity]. }
  rewrite Er.
  destruct (one_repeated (digits_only s)); cbn [negb orb andb]; [reflexivity|].
  apply (cpf_check_loop_decimal _ Hdec (seq 9 2)).
  intros i [<-|[<-|[]]]; lia.
Qed.

Lemma validate_cpf_decimal_rule_witness :
  _validate_cpf (py "529.982.247-25") = Ok true.
Proof.
  apply (validate_cpf_decimal_rule (py "529.982.247-25")).
  repeat constructor.
Defined.

(** A string of eleven copies of one digit character is refused. *)
Theorem validate_cpf_repeated_digit (c : ascii) :
  str_isdigit c = true -> _validate_cpf (repeat c 11) = Ok false.
Proof.
  intros Hc. unfold _validate_cpf.
  rewrite digits_only_all_digits by (repeat constructor; exact Hc).
  simpl. unfold ascii_eqb. rewrite Ascii.eqb_refl. reflexivity.
Qed.

Lemma validate_cpf_repeated_digit_witness :
  _validate_cpf (py "00000000000") = Ok false
  /\ _validate_cpf (py "99999999999") = Ok false.
Proof.
  split.
  - apply (validate_cpf_repeated_digit "0"%char). reflexivity.
  - apply (validate_cpf_repeated_digit "9"%char). reflexivity.
Defined.

(** C3: on "111.444.777-3" followed by the superscript two (U+00B2),
    which [str.isdigit] keeps and [int()] refuses, [_validate_cpf] does
    not return a boolean: eleven digit characters are left, the first
    check digit matches, and reading the second one raises [ValueError].
    The CPF rule itself is false of these eleven characters. *)
Theorem validate_cpf_raises_on_superscript :
  digits_only (py "111.444.777-3" ++ [superscript_two])
    = py "1114447773" ++ [superscript_two]
  /\ cpf_rule (digits_only (py "111.444.777-3" ++ [superscript_two])) = false
  /\ _validate_cpf (py "111.444.777-3" ++ [superscript_two]) = Raise ValueError.
Proof. repeat split. Qed.

(** ** Classification of the pairs *)

Lemma decimal_value_raises (s : pystr) :
  forall acc e, decimal_value acc s = Raise e -> e = ValueError.
Proof.
  induction s as [|c s IH]; intros acc e H; simpl in H; [discriminate|].
  destruct (str_isdecimal c); [eapply IH; exact H|].
  inversion H. reflexivity.
Qed.

Lemma py_int_raises (s : pystr) (e : exn) :
  py_int s = Raise e -> e = ValueError.
Proof.
  unfold py_int. destruct (strip s) as [|c t]; intros H.
  - inversion H. reflexivity.
  - eapply decimal_value_raises. exact H.
Qed.

Lemma group_int_raises d default items texts (e : exn) :
  group_int d default items texts = Raise e -> e = ValueError.
Proof.
  unfold group_int. destruct (group d items texts); [apply py_int_raises|].
  discriminate.
Qed.

Lemma strptime_raises (s fmt : pystr) (e : exn) :
  strptime s fmt = Raise e -> e = ValueError.
Proof.
  unfold strptime, strptime_items.
  destruct (parse_format fmt) as [items|]; [|intros H; inversion H; reflexivity].
  destruct (fmt_match items s) as [|[texts rest] ms];
    [intros H; inversion H; reflexivity|].
  destruct (negb (Nat.eqb (length rest) 0)); [intros H; inversion H; reflexivity|].
  destruct (group_int Dir_Y 1900 items texts) as [y|ey] eqn:Ey; simpl.
  2:{ intros H. inversion H; subst. eapply group_int_raises. exact Ey. }
  destruct (group_int Dir_m 1 items texts) as [m|em] eqn:Em; simpl.
  2:{ intros H. inversion H; subst. eapply group_int_raises. exact Em. }
  destruct (group_int Dir_d 1 items texts) as [d|ed] eqn:Ed; simpl.
  2:{ intros H. inversion H; subst. eapply group_int_raises. exact Ed. }
  destruct (valid_date y m d); intros H; inversion H. reflexivity.
Qed.

(** [_validate_date] always returns: every failure of [strptime] is a
    [ValueError], which the loop catches. *)
Lemma validate_date_returns (now : datetime) (s : pystr) :
  exists b, _validate_date now s = Ok b.
Proof.
  unfold _validate_date. induction formats as [|fmt fmts IH]; simpl.
  - exists false. reflexivity.
  - destruct (strptime (strip s) fmt) as [date|e] eqn:E.
    + eexists. reflexivity.
    + apply strptime_raises in E. subst e. exact IH.
Qed.

Lemma validate_entry_label (now : datetime) (key value : pystr) :
  (classify key = KindCPF -> exists b, _validate_cpf value = Ok b) ->
  validate_entry now empty_results key value = Ok (label_of now key value).
Proof.
  unfold validate_entry, label_of, classify.
  destruct (contains (py "cpf") (lower key)).
  { intros H. destruct (H eq_refl) as [b ->]. destruct b; reflexivity. }
  intros _.
  destruct (contains (py "cnpj") (lower key)).
  { destruct (_validate_cnpj value); reflexivity. }
  destruct (contains (py "data") (lower key) || contains (py "date") (lower key)).
  { destruct (validate_date_returns now value) as [b ->]. destruct b; reflexivity. }
  reflexivity.
Qed.

Lemma validate_loop_labels (clock : nat -> datetime) (items : dict) :
  (forall key value, In (key, value) items -> classify key = KindCPF ->
     exists b, _validate_cpf value = Ok b) ->
  forall i r0,
    validate_loop clock i r0 items
    = Ok (merge r0 (merge_all (labels clock i items))).
Proof.
  induction items as [|[key value] items IH]; intros Hcpf i r0; simpl.
  - rewrite merge_empty_r. reflexivity.
  - rewrite validate_entry_merge, validate_entry_label.
    2:{ apply Hcpf. left. reflexivity. }
    simpl. rewrite IH by (intros; eapply Hcpf; [right|]; eassumption).
    rewrite merge_assoc. reflexivity.
Qed.

(** Whenever [_validate_cpf] returns for every value filed under a CPF
    key, [_validate_fields] returns, and its buckets are the pairs'
    labels in iteration order: "CPF: v" or "CPF invalido: v", "CNPJ: v"
    or "CNPJ invalido: v", "Data: v" or the warning "Data suspeita: v",
    and nothing for any other key. *)
Theorem validate_fields_labels (clock : nat -> datetime) (ed : ExtractedData) :
  (forall key value, In (key, value) (get_key_value_pairs ed) ->
     classify key = KindCPF -> exists b, _validate_cpf value = Ok b) ->
  _validate_fields clock ed
  = Ok (merge_all (labels clock 0 (get_key_value_pairs ed))).
Proof.
  intros H. unfold _validate_fields.
  rewrite (validate_loop_labels clock _ H).
  destruct (merge_all _); reflexivity.
Qed.

Lemma validate_fields_labels_witness :
  _validate_fields (fun _ => a_november_morning) sample_extracted
  = Ok (merge_all (labels (fun _ => a_november_morning) 0 sample_pairs)).
Proof.
  apply (validate_fields_labels (fun _ => a_november_morning) sample_extracted).
  intros key value Hin _.
  destruct Hin as [E|[E|[E|[E|[]]]]]; inversion E; subst; eexists; reflexivity.
Defined.

(** C7: on the mapping whose only pair is "CPF" with the value
    "111.444.777-3" followed by the superscript two, [_validate_fields]
    returns no buckets: the pair is filed under CPF, its value does not
    pass, and instead of the label "CPF invalido: ..." the [ValueError]
    of [_validate_cpf] ends the call. *)
Theorem validate_fields_raises_on_superscript (clock : nat -> datetime) :
  classify (py "CPF") = KindCPF
  /\ passes (_validate_cpf (py "111.444.777-3" ++ [superscript_two])) = false
  /\ _validate_fields clock
       {| error := None;
          key_value_pairs :=
            Some [(py "CPF", py "111.444.777-3" ++ [superscript_two])];
          tables := Some []; entities := Some [] |}
     = Raise ValueError.
Proof. repeat split. Qed.

(** ** Date validation *)

Lemma lex_le_not_lt (a : list Z) :
  forall b, length a = length b -> lex_le a b = negb (lex_lt b a).
Proof.
  induction a as [|x a IH]; intros [|y b] H; try discriminate; [reflexivity|].
  simpl. rewrite (IH b) by (simpl in H; lia).
  destruct (Z.ltb_spec x y), (Z.ltb_spec y x), (Z.eqb_spec x y), (Z.eqb_spec y x);
    try lia; simpl; try reflexivity.
Qed.

Lemma datetime_le_not_lt (a b : datetime) :
  datetime_le a b = negb (datetime_lt b a).
Proof. apply lex_le_not_lt. reflexivity. Qed.


Lemma validate_date_first_parse (now : datetime) (s : pystr) :
  _validate_date now s
  = Ok (match first_parse (strip s) with
        | Some date => negb (datetime_lt now date)
        | None => false
        end).
Proof.
  unfold _validate_date, formats, first_parse, parse_as.
  cbn [validate_date_loop].
  repeat match goal with
  | |- context [strptime (strip s) ?f] =>
      let E := fresh "E" in
      destruct (strptime (strip s) f) as [date|e] eqn:E;
      [rewrite datetime_le_not_lt; reflexivity
      |apply strptime_raises in E; subst e]
  end.
  reflexivity.
Qed.


(** *** What a match consumes *)

Lemma match_one_split ok (s t r : pystr) :
  In (t, r) (match_one ok s) -> s = t ++ r /\ exists c, t = [c] /\ ok c = true.
Proof.
  unfold match_one. destruct s as [|x s]; [intros []|].
  destruct (ok x) eqn:E; [|intros []].
  intros [H|[]]. inversion H; subst. split; [reflexivity|].
  exists x. split; [reflexivity|exact E].
Qed.

Lemma rmatch_split (re : regex) :
  forall s t r, In (t, r) (rmatch re s) -> s = t ++ r.
Proof.
  induction re as [c|lo hi| |r1 IH1 r2 IH2|r1 IH1 r2 IH2]; intros s t r H;
    simpl in H.
  - apply match_one_split in H. tauto.
  - apply match_one_split in H. tauto.
  - apply match_one_split in H. tauto.
  - apply in_flat_map in H. destruct H as ([t1 s1] & H1 & H).
    apply in_map_iff in H. destruct H as ([t2 s2] & E & H2).
    simpl in E, H2. inversion E; subst.
    rewrite (IH1 _ _ _ H1), (IH2 _ _ _ H2), app_assoc. reflexivity.
  - apply in_app_or in H. destruct H as [H|H]; [eapply IH1|eapply IH2]; exact H.
Qed.

Lemma fmt_match_split (items : list fmt_item) :
  forall s texts rest,
    In (texts, rest) (fmt_match items s) ->
    s = concat texts ++ rest /\ Forall2 item_text items texts.
Proof.
  induction items as [|it items IH]; intros s texts rest H; simpl in H.
  - destruct H as [H|[]]. inversion H; subst. split; [reflexivity|constructor].
  - apply in_flat_map in H. destruct H as ([t1 s1] & H1 & H).
    apply in_map_iff in H. destruct H as ([ts s2] & E & H2).
    simpl in E, H2. inversion E; subst.
    destruct (IH _ _ _ H2) as [Hs Hf]. split.
    + simpl. rewrite (rmatch_split _ _ _ _ H1). simpl in Hs. rewrite Hs.
      rewrite app_assoc. reflexivity.
    + constructor; [|exact Hf]. exists s, s1. exact H1.
Qed.

(** The text of a year group: four decimal digits. *)
Lemma year_text (t : pystr) :
  item_text (FDir Dir_Y) t ->
  exists a b c d,
    t = [a; b; c; d]
    /\ str_isdecimal a = true /\ str_isdecimal b = true
    /\ str_isdecimal c = true /\ str_isdecimal d = true.
Proof.
  intros (s & r & H). simpl in H.
  apply in_flat_map in H. destruct H as ([t1 s1] & H1 & H).
  apply in_map_iff in H. destruct H as ([t2 s2] & E2 & H).
  apply in_flat_map in H. destruct H as ([t3 s3] & H3 & H).
  apply in_map_iff in H. destruct H as ([t4 s4] & E4 & H).
  apply in_flat_map in H. destruct H as ([t5 s5] & H5 & H).
  apply in_map_iff in H. destruct H as ([t6 s6] & E6 & H6).
  apply match_one_split in H1, H3, H5, H6.
  destruct H1 as (_ & a & -> & Ha), H3 as (_ & b & -> & Hb),
           H5 as (_ & c & -> & Hc), H6 as (_ & d & -> & Hd).
  simpl in *. inversion E6; subst. inversion E4; subst. inversion E2; subst.
  exists a, b, c, d. auto.
Qed.


Section YearOfParse.

Variables (a b : directive) (c1 c2 : ascii).
Hypothesis a_not_year : directive_eqb Dir_Y a = false.
Hypothesis b_not_year : directive_eqb Dir_Y b = false.


(** A parse under a layout that starts with the year: the data starts
    with four decimal digits, and they are the year of the date. *)
Lemma strptime_year_first (s : pystr) (date : datetime) :
  strptime_items [FDir Dir_Y; FLit c1; FDir a; FLit c2; FDir b] s = Ok date ->
  exists t back,
    s = t ++ back /\ length t = 4%nat
    /\ Forall (fun c => str_isdecimal c = true) t
    /\ py_int t = Ok (year date).
Proof.
  unfold strptime_items.
  destruct (fmt_match _ s) as [|[texts rest] ms] eqn:E; [discriminate|].
  assert (Hin : In (texts, rest)
                  (fmt_match [FDir Dir_Y; FLit c1; FDir a; FLit c2; FDir b] s))
    by (rewrite E; left; reflexivity).
  apply fmt_match_split in Hin. destruct Hin as [Hs Hf].
  destruct rest as [|x rest]; [|discriminate]. cbn [length Nat.eqb negb].
  inversion Hf as [|? t1 ? ts1 Hy Hf1]; subst.
  destruct (year_text _ Hy) as (d1 & d2 & d3 & d4 & -> & Hd1 & Hd2 & Hd3 & Hd4).
  unfold group_int at 1. cbn [group directive_eqb].
  destruct (py_int [d1; d2; d3; d4]) as [y|e] eqn:Ey; [|discriminate].
  cbn [bind].
  destruct (group_int Dir_m 1 _ _) as [m|e]; [|discriminate]. cbn [bind].
  destruct (group_int Dir_d 1 _ _) as [d|e]; [|discriminate]. cbn [bind].
  destruct (valid_date y m d); [|discriminate].
  intros H. inversion H; subst. simpl.
  exists [d1; d2; d3; d4], (concat ts1).
  split; [|split; [reflexivity|split; [repeat constructor; assumption|exact Ey]]].
  simpl. rewrite app_nil_r. reflexivity.
Qed.

End YearOfParse.

(** *** Rendered dates *)

Lemma ord_digit_char (k : Z) : 0 <= k <= 9 -> ord (digit_char k) = 48 + k.
Proof.
  intros H. unfold ord, digit_char.
  rewrite N_ascii_embedding by lia. lia.
Qed.

Lemma digit_char_decimal (k : Z) :
  0 <= k <= 9 -> str_isdecimal (digit_char k) = true.
Proof.
  intros H. unfold str_isdecimal. rewrite (ord_digit_char k H).
  apply andb_true_iff. split; apply Z.leb_le; lia.
Qed.

Lemma strip_inner (x z : ascii) (mid : pystr) :
  str_isspace x = false -> str_isspace z = false ->
  strip (x :: mid ++ [z]) = x :: mid ++ [z].
Proof.
  intros Hx Hz. unfold strip. cbn [lstrip]. rewrite Hx.
  change (x :: mid ++ [z]) with ((x :: mid) ++ [z]).
  rewrite rev_unit. cbn [lstrip]. rewrite Hz.
  change (rev (z :: rev (x :: mid))) with (rev (rev (x :: mid)) ++ [z]).
  rewrite rev_involutive. reflexivity.
Qed.

Lemma py_int_four_digits (y : Z) :
  0 <= y <= 9999 -> py_int (four_digits y) = Ok y.
Proof.
  intros H.
  assert (H3 : 0 <= y / 1000 <= 9) by (Z.to_euclidean_division_equations; lia).
  assert (H2 : 0 <= y / 100 mod 10 <= 9) by (Z.to_euclidean_division_equations; lia).
  assert (H1 : 0 <= y / 10 mod 10 <= 9) by (Z.to_euclidean_division_equations; lia).
  assert (H0 : 0 <= y mod 10 <= 9) by (Z.to_euclidean_division_equations; lia).
  unfold py_int, four_digits.
  pose proof (strip_inner (digit_char (y / 1000)) (digit_char (y mod 10))
                [digit_char (y / 100 mod 10); digit_char (y / 10 mod 10)]) as Hs.
  cbn [app] in Hs.
  rewrite Hs by (apply decimal_not_space, digit_char_decimal; assumption).
  cbn [decimal_value].
  rewrite !digit_char_decimal, !ord_digit_char by assumption.
  f_equal. Z.to_euclidean_division_equations. lia.
Qed.

Lemma valid_date_ranges (y m d : Z) :
  valid_date y m d = true -> 1 <= y <= 9999 /\ 1 <= m <= 12 /\ 1 <= d <= 31.
Proof.
  unfold valid_date, days_in_month. intros H.
  repeat (apply andb_true_iff in H; destruct H as [H ?]).
  repeat match goal with
  | E : (_ <=? _) = true |- _ => apply Z.leb_le in E
  end.
  destruct (m =? 2); [destruct (is_leap y)|destruct (_ || _)]; lia.
Qed.

Lemma two_digits_decimal (n : Z) :
  0 <= n <= 99 ->
  str_isdecimal (digit_char (n / 10)) = true
  /\ str_isdecimal (digit_char (n mod 10)) = true.
Proof.
  intros H. split; apply digit_char_decimal;
    Z.to_euclidean_division_equations; lia.
Qed.

Lemma strip_render (l : layout) (y m d : Z) :
  valid_date y m d = true -> strip (render l y m d) = render l y m d.
Proof.
  intros H. apply valid_date_ranges in H. destruct H as (Hy & Hm & Hd).
  destruct (two_digits_decimal m) as [Hm1 Hm0]; [lia|].
  destruct (two_digits_decimal d) as [Hd1 Hd0]; [lia|].
  assert (Hy3 : str_isdecimal (digit_char (y / 1000)) = true)
    by (apply digit_char_decimal; Z.to_euclidean_division_equations; lia).
  assert (Hy0 : str_isdecimal (digit_char (y mod 10)) = true)
    by (apply digit_char_decimal; Z.to_euclidean_division_equations; lia).
  destruct l; unfold render, two_digits, four_digits; cbn [app py list_ascii_of_string];
    apply (strip_inner _ _ [_; _; _; _; _; _; _; _]);
    apply decimal_not_space; assumption.
Qed.




Lemma lstrip_spaces (ws s : pystr) :
  Forall (fun c => str_isspace c = true) ws -> lstrip (ws ++ s) = lstrip s.
Proof.
  induction 1 as [|c ws Hc _ IH]; [reflexivity|].
  cbn [app lstrip]. rewrite Hc. exact IH.
Qed.

Lemma lstrip_keeps_tail (s t : pystr) :
  lstrip s <> [] -> lstrip (s ++ t) = lstrip s ++ t.
Proof.
  induction s as [|c s IH]; intros H; [contradiction H; reflexivity|].
  cbn [app lstrip] in *. destruct (str_isspace c); [apply IH; exact H|reflexivity].
Qed.

Lemma lstrip_all_spaces (s : pystr) :
  lstrip s = [] -> Forall (fun c => str_isspace c = true) s.
Proof.
  induction s as [|c s IH]; intros H; [constructor|].
  cbn [lstrip] in H. destruct (str_isspace c) eqn:E; [|discriminate].
  constructor; auto.
Qed.

Lemma strip_padding (before s after : pystr) :
  Forall (fun c => str_isspace c = true) before ->
  Forall (fun c => str_isspace c = true) after ->
  strip (before ++ s ++ after) = strip s.
Proof.
  intros Hb Ha. unfold strip. rewrite (lstrip_spaces before _ Hb).
  destruct (lstrip s) as [|c r] eqn:E.
  - apply lstrip_all_spaces in E.
    rewrite <- (app_nil_r (s ++ after)), lstrip_spaces; [reflexivity|].
    apply Forall_app. split; assumption.
  - rewrite lstrip_keeps_tail by (rewrite E; discriminate).
    rewrite E, rev_app_distr, lstrip_spaces; [reflexivity|].
    apply Forall_rev. exact Ha.
Qed.



(** * Further properties of the code *)

(** ** Outcomes of [_validate_cpf] *)

Lemma py_int_single (c : ascii) :
  py_int [c]
  = if str_isdecimal c then Ok (digit_value c) else Raise ValueError.
Proof.
  unfold py_int, strip. cbn [lstrip].
  destruct (str_isdecimal c) eqn:D.
  - rewrite (decimal_not_space c D). cbn [rev app lstrip].
    rewrite (decimal_not_space c D). cbn [rev app decimal_value].
    rewrite D. reflexivity.
  - destruct (str_isspace c) eqn:Sp; cbn [rev app lstrip]; [reflexivity|].
    rewrite Sp. cbn [rev app decimal_value]. rewrite D. reflexivity.
Qed.

Lemma gen_sum_terms f (js : list nat) :
  forall acc total,
    gen_sum f js acc = Ok total -> forall j, In j js -> exists v, f j = Ok v.
Proof.
  induction js as [|k js IH]; intros acc total H j Hj; [destruct Hj|].
  simpl in H. destruct (f k) as [v|e] eqn:E; simpl in H; [|discriminate].
  destruct Hj as [<-|Hj]; [exists v; exact E|].
  eapply IH; eassumption.
Qed.

Lemma gen_sum_raises f (js : list nat) :
  (forall j e, In j js -> f j = Raise e -> e = ValueError) ->
  forall acc e, gen_sum f js acc = Raise e -> e = ValueError.
Proof.
  induction js as [|k js IH]; intros Hf acc e H; simpl in H; [discriminate|].
  destruct (f k) as [v|e'] eqn:E; simpl in H.
  - eapply IH; [|exact H]. intros; eapply Hf; [right|]; eassumption.
  - inversion H; subst. eapply Hf; [left; reflexivity|exact E].
Qed.

Lemma cpf_term_decimal_inv (cpf : pystr) (i j : nat) (v : Z) :
  cpf_term cpf i j = Ok v ->
  exists c, nth_error cpf j = Some c /\ str_isdecimal c = true.
Proof.
  unfold cpf_term, str_index.
  destruct (nth_error cpf j) as [c|]; simpl; [|discriminate].
  rewrite py_int_single. destruct (str_isdecimal c) eqn:D; [|discriminate].
  intros _. exists c. split; [reflexivity|exact D].
Qed.

Lemma cpf_term_raises (cpf : pystr) (i j : nat) (e : exn) :
  (j < length cpf)%nat -> cpf_term cpf i j = Raise e -> e = ValueError.
Proof.
  intros Hj. unfold cpf_term, str_index.
  rewrite (nth_error_nth' cpf "0"%char Hj). simpl.
  rewrite py_int_single. destruct (str_isdecimal _); simpl; [discriminate|].
  intros H. inversion H. reflexivity.
Qed.

Lemma cpf_check_loop_raises (cpf : pystr) (todo : list nat) :
  (forall i, In i todo -> (i < length cpf)%nat) ->
  forall e, cpf_check_loop cpf todo = Raise e -> e = ValueError.
Proof.
  induction todo as [|i todo IH]; intros Hin e H; simpl in H; [discriminate|].
  assert (Hi : (i < length cpf)%nat) by (apply Hin; left; reflexivity).
  destruct (gen_sum (cpf_term cpf i) (seq 0 i) 0) as [total|e'] eqn:E; simpl in H.
  2:{ inversion H; subst. eapply gen_sum_raises; [|exact E].
      intros j e1 Hj. apply in_seq in Hj. apply cpf_term_raises. lia. }
  unfold str_index in H. rewrite (nth_error_nth' cpf "0"%char Hi) in H.
  simpl in H. rewrite py_int_single in H.
  destruct (str_isdecimal _); simpl in H; [|inversion H; reflexivity].
  destruct (negb _); [discriminate|].
  eapply IH; [|exact H]. intros k Hk. apply Hin. right. exact Hk.
Qed.

(** When the two turns of the loop both pass, all eleven characters have
    been read as decimal digits. *)
Lemma cpf_check_loop_true_decimal (cpf : pystr) :
  length cpf = 11%nat ->
  cpf_check_loop cpf (seq 9 2) = Ok true ->
  Forall (fun c => str_isdecimal c = true) cpf.
Proof.
  intros Hl H. change (seq 9 2) with [9%nat; 10%nat] in H.
  cbn [cpf_check_loop] in H.
  destruct (gen_sum (cpf_term cpf 9) (seq 0 9) 0) as [t9|e] eqn:E9;
    cbn [bind] in H; [|discriminate].
  destruct (str_index cpf 9) as [c9|e]; cbn [bind] in H; [|discriminate].
  destruct (py_int [c9]) as [d9|e]; cbn [bind] in H; [|discriminate].
  destruct (negb _); [discriminate|].
  destruct (gen_sum (cpf_term cpf 10) (seq 0 10) 0) as [t10|e] eqn:E10;
    cbn [bind] in H; [|discriminate].
  unfold str_index in H.
  destruct (nth_error cpf 10) as [c10|] eqn:N10; cbn [bind] in H; [|discriminate].
  rewrite py_int_single in H.
  destruct (str_isdecimal c10) eqn:D10; cbn [bind] in H; [|discriminate].
  apply Forall_forall. intros c Hc.
  apply In_nth_error in Hc. destruct Hc as [j Hj].
  assert (Hlt : (j < 11)%nat).
  { rewrite <- Hl. apply nth_error_Some. rewrite Hj. discriminate. }
  destruct (Nat.eq_dec j 10) as [->|Hne].
  - rewrite N10 in Hj. inversion Hj; subst. exact D10.
  - destruct (gen_sum_terms _ _ _ _ E10 j) as [v Hv]; [apply in_seq; lia|].
    apply cpf_term_decimal_inv in Hv. destruct Hv as (c' & Hc' & Hd).
    rewrite Hj in Hc'. inversion Hc'; subst. exact Hd.
Qed.

Lemma validate_cpf_true_inv (s : pystr) :
  _validate_cpf s = Ok true ->
  Forall (fun c => str_isdecimal c = true) (digits_only s)
  /\ cpf_rule (digits_only s) = true.
Proof.
  intros H.
  assert (Hdec : Forall (fun c => str_isdecimal c = true) (digits_only s)).
  { unfold _validate_cpf in H.
    destruct (Nat.eqb (length (digits_only s)) 11) eqn:El;
      cbn [negb orb] in H; [|discriminate].
    destruct (str_eqb _ _); [discriminate|].
    apply Nat.eqb_eq in El. apply cpf_check_loop_true_decimal; assumption. }
  split; [exact Hdec|].
  rewrite (validate_cpf_decimal_rule s Hdec) in H. inversion H. reflexivity.
Qed.

(** [_validate_cpf] answers true exactly when its digit characters are
    eleven decimal digits that satisfy the CPF rule. *)
Theorem validate_cpf_accepts_iff (s : pystr) :
  _validate_cpf s = Ok true
  <-> Forall (fun c => str_isdecimal c = true) (digits_only s)
      /\ cpf_rule (digits_only s) = true.
Proof.
  split; [apply validate_cpf_true_inv|].
  intros [Hdec Hrule]. rewrite (validate_cpf_decimal_rule s Hdec), Hrule.
  reflexivity.
Qed.

(** The only exception [_validate_cpf] raises is [ValueError], and only
    on an input with exactly eleven digit characters that are not one
    character repeated and of which one is not a decimal digit. *)
Theorem validate_cpf_raises_only (s : pystr) (e : exn) :
  _validate_cpf s = Raise e ->
  e = ValueError
  /\ length (digits_only s) = 11%nat
  /\ one_repeated (digits_only s) = false
  /\ Exists (fun c => str_isdecimal c = false) (digits_only s).
Proof.
  intros H.
  assert (Hex : Exists (fun c => str_isdecimal c = false) (digits_only s)).
  { destruct (Forall_Exists_dec (fun c => str_isdecimal c = true)
                (fun c => bool_dec (str_isdecimal c) true) (digits_only s))
      as [Hall|Hex].
    - rewrite (validate_cpf_decimal_rule s Hall) in H. discriminate.
    - eapply Exists_impl; [|exact Hex]. intros c Hc.
      simpl in Hc. destruct (str_isdecimal c); [exfalso; apply Hc|]; reflexivity. }
  unfold _validate_cpf in H.
  destruct (Nat.eqb (length (digits_only s)) 11) eqn:El;
    cbn [negb orb] in H; [|discriminate].
  apply Nat.eqb_eq in El.
  destruct (str_eqb _ _) eqn:Er; [discriminate|].
  rewrite <- El, str_eqb_repeat in Er.
  assert (Hrep : one_repeated (digits_only s) = false).
  { destruct (digits_only s); [discriminate|exact Er]. }
  split; [|split; [exact El|split; [exact Hrep|exact Hex]]].
  eapply cpf_check_loop_raises; [|exact H].
  intros i [<-|[<-|[]]]; lia.
Qed.

Lemma validate_cpf_raises_only_witness :
  length (digits_only (py "111.444.777-3" ++ [superscript_two])) = 11%nat
  /\ Exists (fun c => str_isdecimal c = false)
       (digits_only (py "111.444.777-3" ++ [superscript_two])).
Proof.
  destruct (validate_cpf_raises_only
              (py "111.444.777-3" ++ [superscript_two]) ValueError eq_refl)
    as (_ & Hl & _ & Hex).
  split; assumption.
Defined.

(** ** What the CPF check digits detect *)

Lemma decimal_digit_range (c : ascii) :
  str_isdecimal c = true -> 0 <= digit_value c <= 9.
Proof.
  unfold str_isdecimal, digit_value. intros H.
  apply andb_true_iff in H. destruct H as [H1 H2].
  apply Z.leb_le in H1. apply Z.leb_le in H2. lia.
Qed.

Lemma digit_value_inj (a b : ascii) : digit_value a = digit_value b -> a = b.
Proof.
  unfold digit_value, ord. intros H.
  assert (E : N_of_ascii a = N_of_ascii b) by lia.
  rewrite <- (ascii_N_embedding a), <- (ascii_N_embedding b), E. reflexivity.
Qed.

Lemma decimal_isdigit (c : ascii) :
  str_isdecimal c = true -> str_isdigit c = true.
Proof.
  unfold str_isdecimal, str_isdigit. intros H. cbv zeta in *. rewrite H.
  reflexivity.
Qed.

Lemma cpf_rule_length (l : pystr) : cpf_rule l = true -> length l = 11%nat.
Proof.
  unfold cpf_rule. intros H. apply andb_true_iff in H.
  destruct H as [H _]. apply andb_true_iff in H.
  destruct H as [H _]. apply Nat.eqb_eq. exact H.
Qed.

Lemma cpf_rule_check_digits (c0 c1 c2 c3 c4 c5 c6 c7 c8 c9 c10 : ascii) :
  cpf_rule [c0; c1; c2; c3; c4; c5; c6; c7; c8; c9; c10] = true ->
  digit_value c9
  = ((10 * digit_value c0 + 9 * digit_value c1 + 8 * digit_value c2
      + 7 * digit_value c3 + 6 * digit_value c4 + 5 * digit_value c5
      + 4 * digit_value c6 + 3 * digit_value c7 + 2 * digit_value c8)
     * 10 mod 11) mod 10
  /\ digit_value c10
     = ((11 * digit_value c0 + 10 * digit_value c1 + 9 * digit_value c2
         + 8 * digit_value c3 + 7 * digit_value c4 + 6 * digit_value c5
         + 5 * digit_value c6 + 4 * digit_value c7 + 3 * digit_value c8
         + 2 * digit_value c9)
        * 10 mod 11) mod 10.
Proof.
  intros H. unfold cpf_rule in H.
  apply andb_true_iff in H. destruct H as [_ H10].
  cbn [forallb] in H10.
  apply andb_true_iff in H10. destruct H10 as [H9 H10].
  apply andb_true_iff in H10. destruct H10 as [H10 _].
  apply Z.eqb_eq in H9, H10.
  unfold cpf_expected_digit, cpf_weighted_sum in H9, H10.
  cbn [seq map fold_right] in H9, H10.
  unfold digit_at in H9, H10. cbn [nth] in H9, H10.
  simpl Z.of_nat in H9, H10.
  split; [rewrite H9|rewrite H10]; do 2 f_equal; lia.
Qed.

(** Moving a sum by a non-zero digit difference times the weights of one
    of the positions 2 to 5 or 7 to 9 changes one of the two check
    digits. *)
Lemma chk_shift (w1 w2 S1 S2 d : Z) :
  In (w1, w2) [(9, 10); (8, 9); (7, 8); (6, 7); (4, 5); (3, 4); (2, 3)] ->
  -9 <= d <= 9 -> d <> 0 ->
  chk S1 = chk (S1 + d * w1) -> chk S2 = chk (S2 + d * w2) -> False.
Proof.
  unfold chk. intros Hw Hd Hz H1 H2.
  repeat (destruct Hw as [Hw|Hw]; [inversion Hw; subst; clear Hw|]);
    [..|destruct Hw];
    Z.to_euclidean_division_equations; lia.
Qed.

Ltac shifted_sums E9 E10 A9 A10 c cj w1 w2 :=
  match type of E9 with
  | _ = (?X * 10 mod 11) mod 10 =>
    match type of E10 with
    | _ = (?Y * 10 mod 11) mod 10 =>
        apply (chk_shift w1 w2 X Y (digit_value c - digit_value cj));
        [simpl; tauto | lia | lia
        | unfold chk; etransitivity; [symmetry; exact E9|];
          etransitivity; [exact A9|]; do 2 f_equal; lia
        | unfold chk; etransitivity; [symmetry; exact E10|];
          etransitivity; [exact A10|]; do 2 f_equal; lia]
    end
  end.

Lemma alter_breaks_rule (l : pystr) (j : nat) (c : ascii) :
  Forall (fun x => str_isdecimal x = true) l ->
  cpf_rule l = true ->
  (j < 11)%nat -> j <> 0%nat -> j <> 5%nat ->
  str_isdecimal c = true ->
  nth_error l j <> Some c ->
  cpf_rule (alter j c l) = false.
Proof.
  intros Hdec Hrule Hj H0 H5 Hc Hne.
  pose proof (cpf_rule_length l Hrule) as Hl.
  destruct l as [|c0 [|c1 [|c2 [|c3 [|c4 [|c5 [|c6 [|c7 [|c8 [|c9 [|c10 [|]]]]]]]]]]]];
    try discriminate.
  destruct (cpf_rule_check_digits _ _ _ _ _ _ _ _ _ _ _ Hrule) as [E9 E10].
  destruct (cpf_rule (alter j c _)) eqn:Ha; [exfalso|reflexivity].
  repeat match goal with
  | H : Forall _ (_ :: _) |- _ =>
      let D := fresh "D" in
      inversion H as [|? ? D ?]; subst; clear H; apply decimal_digit_range in D
  end.
  apply decimal_digit_range in Hc.
  destruct j as [|[|[|[|[|[|[|[|[|[|[|j]]]]]]]]]]]; try lia; try contradiction;
    unfold alter in Ha; cbn [firstn skipn app] in Ha;
    apply cpf_rule_check_digits in Ha; destruct Ha as [A9 A10];
    (assert (Hv : digit_value c <> digit_value _)
       by (intros E; apply Hne; cbn [nth_error]; f_equal; symmetry;
           apply digit_value_inj; exact E)).
  - shifted_sums E9 E10 A9 A10 c c1 9 10.
  - shifted_sums E9 E10 A9 A10 c c2 8 9.
  - shifted_sums E9 E10 A9 A10 c c3 7 8.
  - shifted_sums E9 E10 A9 A10 c c4 6 7.
  - shifted_sums E9 E10 A9 A10 c c6 4 5.
  - shifted_sums E9 E10 A9 A10 c c7 3 4.
  - shifted_sums E9 E10 A9 A10 c c8 2 3.
  - rewrite <- E9 in A9. lia.
  - rewrite <- E10 in A10. lia.
Qed.

Lemma Forall_prefix {A} (P : A -> Prop) (n : nat) :
  forall l, Forall P l -> Forall P (firstn n l).
Proof.
  induction n as [|n IH]; intros l H; [constructor|].
  destruct H; cbn [firstn]; constructor; auto.
Qed.

Lemma Forall_suffix {A} (P : A -> Prop) (n : nat) :
  forall l, Forall P l -> Forall P (skipn n l).
Proof.
  induction n as [|n IH]; intros l H; [exact H|].
  destruct H; cbn [skipn]; [constructor|auto].
Qed.

Lemma alter_decimal (l : pystr) (j : nat) (c : ascii) :
  Forall (fun x => str_isdecimal x = true) l ->
  str_isdecimal c = true ->
  Forall (fun x => str_isdecimal x = true) (alter j c l).
Proof.
  intros Hl Hc. unfold alter. apply Forall_app. split.
  - apply Forall_prefix. exact Hl.
  - constructor; [exact Hc|]. apply Forall_suffix. exact Hl.
Qed.

(** The first and the sixth digit are not protected: here a valid CPF
    stays valid when its first digit goes from 0 to 1, and when its sixth
    goes from 9 to 0. *)
Example cpf_unprotected_positions :
  _validate_cpf (py "000.039.596-00") = Ok true
  /\ _validate_cpf (py "100.039.596-00") = Ok true
  /\ _validate_cpf (py "000.030.596-00") = Ok true.
Proof. repeat split. Qed.

(** Replacing one digit of an accepted CPF by another decimal digit, at
    any position but the first and the sixth, gives a number that
    [_validate_cpf] refuses. *)
Theorem cpf_single_digit_detected (s : pystr) (j : nat) (c : ascii) :
  _validate_cpf s = Ok true ->
  (j < 11)%nat -> j <> 0%nat -> j <> 5%nat ->
  str_isdecimal c = true ->
  nth_error (digits_only s) j <> Some c ->
  _validate_cpf (alter j c (digits_only s)) = Ok false.
Proof.
  intros Hs Hj H0 H5 Hc Hne.
  destruct (validate_cpf_true_inv s Hs) as [Hdec Hrule].
  pose proof (alter_decimal _ j c Hdec Hc) as Ha.
  assert (Ed : digits_only (alter j c (digits_only s)) = alter j c (digits_only s)).
  { apply digits_only_all_digits. eapply Forall_impl; [|exact Ha].
    intros x. apply decimal_isdigit. }
  rewrite validate_cpf_decimal_rule by (rewrite Ed; exact Ha).
  rewrite Ed, (alter_breaks_rule _ j c Hdec Hrule Hj H0 H5 Hc Hne).
  reflexivity.
Qed.

Lemma cpf_single_digit_detected_witness :
  _validate_cpf (py "11144477745") = Ok false
  /\ _validate_cpf (py "11144477835") = Ok false.
Proof.
  split.
  - exact (cpf_single_digit_detected (py "111.444.777-35") 9 "4"%char eq_refl
             ltac:(lia) ltac:(lia) ltac:(lia) eq_refl ltac:(discriminate)).
  - exact (cpf_single_digit_detected (py "111.444.777-35") 8 "8"%char eq_refl
             ltac:(lia) ltac:(lia) ltac:(lia) eq_refl ltac:(discriminate)).
Defined.

(** The two check digits are a function of the first nine digits: two
    accepted CPFs that agree on their first nine digit characters have
    the same digits. *)
Theorem cpf_check_digits_determined (s t : pystr) :
  _validate_cpf s = Ok true -> _validate_cpf t = Ok true ->
  firstn 9 (digits_only s) = firstn 9 (digits_only t) ->
  digits_only s = digits_only t.
Proof.
  intros Hs Ht E.
  destruct (validate_cpf_true_inv s Hs) as [_ Rs].
  destruct (validate_cpf_true_inv t Ht) as [_ Rt].
  pose proof (cpf_rule_length _ Rs) as Ls.
  pose proof (cpf_rule_length _ Rt) as Lt.
  destruct (digits_only s)
    as [|a0 [|a1 [|a2 [|a3 [|a4 [|a5 [|a6 [|a7 [|a8 [|a9 [|a10 [|]]]]]]]]]]]];
    try discriminate.
  destruct (digits_only t)
    as [|b0 [|b1 [|b2 [|b3 [|b4 [|b5 [|b6 [|b7 [|b8 [|b9 [|b10 [|]]]]]]]]]]]];
    try discriminate.
  cbn [firstn] in E. inversion E; subst.
  destruct (cpf_rule_check_digits _ _ _ _ _ _ _ _ _ _ _ Rs) as [A9 A10].
  destruct (cpf_rule_check_digits _ _ _ _ _ _ _ _ _ _ _ Rt) as [B9 B10].
  rewrite <- B9 in A9. apply digit_value_inj in A9. subst.
  rewrite <- B10 in A10. apply digit_value_inj in A10. subst.
  reflexivity.
Qed.

Lemma cpf_check_digits_determined_witness :
  digits_only (py "111.444.777-35") = digits_only (py "11144477735").
Proof.
  exact (cpf_check_digits_determined (py "111.444.777-35") (py "11144477735")
           eq_refl eq_refl eq_refl).
Defined.

(** ** Outcomes of [_validate_date] *)

(** No exception leaves [_validate_date]: whatever the string and the
    clock, it returns a boolean. *)
Theorem validate_date_never_raises (now : datetime) (s : pystr) :
  exists b, _validate_date now s = Ok b.
Proof. apply validate_date_returns. Qed.

Lemma strptime_items_midnight (items : list fmt_item) (s : pystr)
    (date : datetime) :
  strptime_items items s = Ok date ->
  valid_date (year date) (month date) (day date) = true
  /\ date = mk_datetime (year date) (month date) (day date) 0 0 0 0.
Proof.
  unfold strptime_items.
  destruct (fmt_match items s) as [|[texts rest] ms]; [discriminate|].
  destruct (negb _); [discriminate|].
  destruct (group_int Dir_Y 1900 items texts) as [y|e]; [|discriminate].
  destruct (group_int Dir_m 1 items texts) as [m|e]; [|discriminate].
  destruct (group_int Dir_d 1 items texts) as [d|e]; [|discriminate].
  cbn [bind]. destruct (valid_date y m d) eqn:V; [|discriminate].
  intros H. inversion H; subst. cbn [year month day]. split; [exact V|reflexivity].
Qed.

Lemma first_parse_midnight (s : pystr) (date : datetime) :
  first_parse s = Some date ->
  valid_date (year date) (month date) (day date) = true
  /\ date = mk_datetime (year date) (month date) (day date) 0 0 0 0.
Proof.
  unfold first_parse, parse_as, strptime.
  repeat match goal with
  | |- context [parse_format ?f] =>
      destruct (parse_format f) as [?items|]
  end;
  repeat match goal with
  | |- context [strptime_items ?i s] =>
      let E := fresh "E" in
      destruct (strptime_items i s) as [?d|?e] eqn:E
  end;
  intros H; inversion H; subst;
  eapply strptime_items_midnight; eassumption.
Qed.

(** A string [_validate_date] accepts reads, in the first layout that
    parses it, as a day of the calendar (year 1 to 9999, a day the month
    has) at midnight, not after the clock's reading. *)
Theorem validate_date_accepts_calendar_day (now : datetime) (s : pystr) :
  _validate_date now s = Ok true ->
  exists y m d,
    first_parse (strip s) = Some (mk_datetime y m d 0 0 0 0)
    /\ valid_date y m d = true
    /\ datetime_le (mk_datetime y m d 0 0 0 0) now = true.
Proof.
  rewrite validate_date_first_parse.
  destruct (first_parse (strip s)) as [date|] eqn:E; [|discriminate].
  intros H.
  assert (Hle : negb (datetime_lt now date) = true) by congruence.
  rewrite <- datetime_le_not_lt in Hle.
  destruct (first_parse_midnight _ _ E) as [V Ed].
  exists (year date), (month date), (day date).
  rewrite <- Ed. split; [reflexivity|split; [exact V|exact Hle]].
Qed.

Lemma validate_date_accepts_calendar_day_witness :
  exists y m d,
    first_parse (strip (py " 29/02/2024 ")) = Some (mk_datetime y m d 0 0 0 0)
    /\ valid_date y m d = true
    /\ datetime_le (mk_datetime y m d 0 0 0 0) a_november_morning = true.
Proof.
  exact (validate_date_accepts_calendar_day a_november_morning
           (py " 29/02/2024 ") eq_refl).
Defined.

Lemma lex_le_trans (a : list Z) :
  forall b c, length a = length b -> length b = length c ->
    lex_le a b = true -> lex_le b c = true -> lex_le a c = true.
Proof.
  induction a as [|x a IH]; intros [|y b] [|z c] Hab Hbc H1 H2;
    try discriminate; [reflexivity|].
  simpl in *.
  apply orb_true_iff in H1. apply orb_true_iff in H2. apply orb_true_iff.
  destruct H1 as [H1|H1], H2 as [H2|H2].
  - left. apply Z.ltb_lt. apply Z.ltb_lt in H1, H2. lia.
  - apply andb_true_iff in H2. destruct H2 as [H2 _].
    left. apply Z.ltb_lt. apply Z.ltb_lt in H1. apply Z.eqb_eq in H2. lia.
  - apply andb_true_iff in H1. destruct H1 as [H1 _].
    left. apply Z.ltb_lt. apply Z.ltb_lt in H2. apply Z.eqb_eq in H1. lia.
  - apply andb_true_iff in H1. destruct H1 as [H1 H1'].
    apply andb_true_iff in H2. destruct H2 as [H2 H2'].
    right. apply andb_true_iff. split.
    + apply Z.eqb_eq. apply Z.eqb_eq in H1, H2. lia.
    + eapply (IH b c); try eassumption; lia.
Qed.

Lemma datetime_le_trans (a b c : datetime) :
  datetime_le a b = true -> datetime_le b c = true -> datetime_le a c = true.
Proof. apply lex_le_trans; reflexivity. Qed.

(** Time only helps: a string accepted at one reading of the clock is
    accepted at every later reading. *)
Theorem validate_date_stays_valid (now later : datetime) (s : pystr) :
  _validate_date now s = Ok true ->
  datetime_le now later = true ->
  _validate_date later s = Ok true.
Proof.
  rewrite !validate_date_first_parse.
  destruct (first_parse (strip s)) as [date|]; [|discriminate].
  rewrite <- !datetime_le_not_lt. intros H Hl.
  assert (Hd : datetime_le date now = true) by congruence.
  rewrite (datetime_le_trans _ _ _ Hd Hl). reflexivity.
Qed.

Lemma validate_date_stays_valid_witness :
  _validate_date (mk_datetime 2030 1 1 0 0 0 0) (py "2020-01-01") = Ok true.
Proof.
  exact (validate_date_stays_valid a_november_morning
           (mk_datetime 2030 1 1 0 0 0 0) (py "2020-01-01") eq_refl eq_refl).
Defined.

(** White space around the date does not count: padding the string with
    white space on either side leaves the answer unchanged. *)
Theorem validate_date_ignores_padding (now : datetime) (before s after : pystr) :
  Forall (fun c => str_isspace c = true) before ->
  Forall (fun c => str_isspace c = true) after ->
  _validate_date now (before ++ s ++ after) = _validate_date now s.
Proof.
  intros Hb Ha.
  rewrite !validate_date_first_parse, (strip_padding before s after Hb Ha).
  reflexivity.
Qed.

Lemma validate_date_ignores_padding_witness :
  _validate_date a_november_morning (py "  " ++ py "01/01/2020" ++ [newline])
  = _validate_date a_november_morning (py "01/01/2020").
Proof.
  apply (validate_date_ignores_padding a_november_morning
           (py "  ") (py "01/01/2020") [newline]);
    repeat constructor.
Defined.

(** ** Reading back a rendered date *)

Lemma Z_range_cases (lo : Z) (n : nat) (x : Z) :
  lo <= x < lo + Z.of_nat n ->
  In x (map (fun k => lo + Z.of_nat k) (seq 0 n)).
Proof.
  intros H. apply in_map_iff. exists (Z.to_nat (x - lo)).
  split; [lia|apply in_seq; lia].
Qed.

Ltac each_value H :=
  simpl in H; repeat (destruct H as [<-|H]); [..|destruct H].

(** The first match of the day, of the month and of the year on their
    own rendering is the whole rendering. *)
Lemma day_match_head (d : Z) (rest : pystr) :
  1 <= d <= 31 ->
  exists others,
    rmatch (directive_regex Dir_d) (two_digits d ++ rest)
    = (two_digits d, rest) :: others.
Proof.
  intros H. assert (Hin : 1 <= d < 1 + Z.of_nat 31) by lia.
  apply Z_range_cases in Hin. each_value Hin; eexists; reflexivity.
Qed.

Lemma month_match_head (m : Z) (rest : pystr) :
  1 <= m <= 12 ->
  exists others,
    rmatch (directive_regex Dir_m) (two_digits m ++ rest)
    = (two_digits m, rest) :: others.
Proof.
  intros H. assert (Hin : 1 <= m < 1 + Z.of_nat 12) by lia.
  apply Z_range_cases in Hin. each_value Hin; eexists; reflexivity.
Qed.

Lemma year_match (y : Z) (rest : pystr) :
  0 <= y <= 9999 ->
  rmatch (directive_regex Dir_Y) (four_digits y ++ rest)
  = [(four_digits y, rest)].
Proof.
  intros H.
  assert (D3 : str_isdecimal (digit_char (y / 1000)) = true)
    by (apply digit_char_decimal; Z.to_euclidean_division_equations; lia).
  assert (D2 : str_isdecimal (digit_char (y / 100 mod 10)) = true)
    by (apply digit_char_decimal; Z.to_euclidean_division_equations; lia).
  assert (D1 : str_isdecimal (digit_char (y / 10 mod 10)) = true)
    by (apply digit_char_decimal; Z.to_euclidean_division_equations; lia).
  assert (D0 : str_isdecimal (digit_char (y mod 10)) = true)
    by (apply digit_char_decimal; Z.to_euclidean_division_equations; lia).
  unfold four_digits, directive_regex.
  repeat (cbn [app rmatch match_one flat_map map fst snd];
          rewrite ?D3, ?D2, ?D1, ?D0).
  reflexivity.
Qed.

Lemma literal_match (c : ascii) (rest : pystr) :
  rmatch (item_regex (FLit c)) ([c] ++ rest) = [([c], rest)].
Proof.
  cbn [item_regex rmatch match_one app]. unfold ascii_eqb.
  rewrite Ascii.eqb_refl. reflexivity.
Qed.

Lemma fmt_match_texts (items : list fmt_item) (texts : list pystr) :
  Forall2 reads_first items texts ->
  forall rest, exists others,
    fmt_match items (concat texts ++ rest) = (texts, rest) :: others.
Proof.
  induction 1 as [|it t items texts Hit _ IH]; intros rest.
  - exists []. reflexivity.
  - destruct (Hit (concat texts ++ rest)) as [o1 E1].
    destruct (IH rest) as [o2 E2].
    cbn [concat fmt_match]. rewrite <- app_assoc, E1.
    cbn [flat_map fst snd]. rewrite E2. cbn [map app fst snd].
    eexists. reflexivity.
Qed.

Lemma py_int_two_digits (n : Z) : 0 <= n <= 99 -> py_int (two_digits n) = Ok n.
Proof.
  intros H. destruct (two_digits_decimal n H) as [D1 D0].
  assert (H1 : 0 <= n / 10 <= 9) by (Z.to_euclidean_division_equations; lia).
  assert (H0 : 0 <= n mod 10 <= 9) by (Z.to_euclidean_division_equations; lia).
  unfold py_int, two_digits.
  pose proof (strip_inner (digit_char (n / 10)) (digit_char (n mod 10)) []) as Hs.
  cbn [app] in Hs. rewrite Hs by (apply decimal_not_space; assumption).
  cbn [decimal_value]. rewrite D1, D0, !ord_digit_char by assumption.
  f_equal. Z.to_euclidean_division_equations. lia.
Qed.

Section Rendered.

Variables (y m d : Z).
Hypothesis date_valid : valid_date y m d = true.

Let year_range : 0 <= y <= 9999.
Proof. apply valid_date_ranges in date_valid. lia. Qed.

Let month_range : 1 <= m <= 12.
Proof. apply valid_date_ranges in date_valid. lia. Qed.

Let day_range : 1 <= d <= 31.
Proof. apply valid_date_ranges in date_valid. lia. Qed.

Lemma reads_day : reads_first (FDir Dir_d) (two_digits d).
Proof. intros rest. apply day_match_head. exact day_range. Qed.

Lemma reads_month : reads_first (FDir Dir_m) (two_digits m).
Proof. intros rest. apply month_match_head. exact month_range. Qed.

Lemma reads_year : reads_first (FDir Dir_Y) (four_digits y).
Proof. intros rest. exists []. apply year_match. exact year_range. Qed.

Lemma reads_literal (c : ascii) : reads_first (FLit c) [c].
Proof. intros rest. exists []. apply literal_match. Qed.

Ltac read_groups :=
  cbn [length Nat.eqb negb group_int group directive_eqb];
  rewrite (py_int_four_digits y year_range);
  rewrite (py_int_two_digits m) by lia;
  rewrite (py_int_two_digits d) by lia;
  cbn [bind]; rewrite date_valid; reflexivity.

(** Day, month, year around one separator. *)
Lemma strptime_day_month_year (c : ascii) :
  strptime_items [FDir Dir_d; FLit c; FDir Dir_m; FLit c; FDir Dir_Y]
    (two_digits d ++ [c] ++ two_digits m ++ [c] ++ four_digits y)
  = Ok (mk_datetime y m d 0 0 0 0).
Proof.
  destruct (fmt_match_texts
              [FDir Dir_d; FLit c; FDir Dir_m; FLit c; FDir Dir_Y]
              [two_digits d; [c]; two_digits m; [c]; four_digits y]) with (rest := @nil ascii)
    as [others E].
  { repeat constructor;
      auto using reads_day, reads_month, reads_year, reads_literal. }
  unfold strptime_items.
  replace (two_digits d ++ [c] ++ two_digits m ++ [c] ++ four_digits y)
    with (concat [two_digits d; [c]; two_digits m; [c]; four_digits y] ++ [])
    by (cbn [concat]; rewrite !app_nil_r; reflexivity).
  rewrite E. read_groups.
Qed.

(** Month, day, year around one separator. *)
Lemma strptime_month_day_year (c : ascii) :
  strptime_items [FDir Dir_m; FLit c; FDir Dir_d; FLit c; FDir Dir_Y]
    (two_digits m ++ [c] ++ two_digits d ++ [c] ++ four_digits y)
  = Ok (mk_datetime y m d 0 0 0 0).
Proof.
  destruct (fmt_match_texts
              [FDir Dir_m; FLit c; FDir Dir_d; FLit c; FDir Dir_Y]
              [two_digits m; [c]; two_digits d; [c]; four_digits y]) with (rest := @nil ascii)
    as [others E].
  { repeat constructor;
      auto using reads_day, reads_month, reads_year, reads_literal. }
  unfold strptime_items.
  replace (two_digits m ++ [c] ++ two_digits d ++ [c] ++ four_digits y)
    with (concat [two_digits m; [c]; two_digits d; [c]; four_digits y] ++ [])
    by (cbn [concat]; rewrite !app_nil_r; reflexivity).
  rewrite E. read_groups.
Qed.

(** Year, month, day around one separator. *)
Lemma strptime_year_month_day (c : ascii) :
  strptime_items [FDir Dir_Y; FLit c; FDir Dir_m; FLit c; FDir Dir_d]
    (four_digits y ++ [c] ++ two_digits m ++ [c] ++ two_digits d)
  = Ok (mk_datetime y m d 0 0 0 0).
Proof.
  destruct (fmt_match_texts
              [FDir Dir_Y; FLit c; FDir Dir_m; FLit c; FDir Dir_d]
              [four_digits y; [c]; two_digits m; [c]; two_digits d]) with (rest := @nil ascii)
    as [others E].
  { repeat constructor;
      auto using reads_day, reads_month, reads_year, reads_literal. }
  unfold strptime_items.
  replace (four_digits y ++ [c] ++ two_digits m ++ [c] ++ two_digits d)
    with (concat [four_digits y; [c]; two_digits m; [c]; two_digits d] ++ [])
    by (cbn [concat]; rewrite !app_nil_r; reflexivity).
  rewrite E. read_groups.
Qed.

End Rendered.

(** *** Layouts that do not parse a rendering *)

Lemma four_decimal_prefix (t back s : pystr) :
  s = t ++ back -> length t = 4%nat ->
  Forall (fun c => str_isdecimal c = true) t ->
  str_isdecimal (nth 2 s "/"%char) = true.
Proof.
  intros -> Hl Hdec.
  destruct t as [|t1 [|t2 [|t3 [|t4 [|t5 t]]]]]; try discriminate.
  inversion Hdec as [|? ? _ Hd2]. inversion Hd2 as [|? ? _ Hd3].
  inversion Hd3 as [|? ? H3 _]. exact H3.
Qed.

(** A layout that starts with the year needs a digit in third place. *)
Lemma year_first_third_digit (a b : directive) (c1 c2 : ascii) (s : pystr)
    (date : datetime) :
  strptime_items [FDir Dir_Y; FLit c1; FDir a; FLit c2; FDir b] s = Ok date ->
  str_isdecimal (nth 2 s "/"%char) = true.
Proof.
  intros H. apply strptime_year_first in H.
  destruct H as (t & back & Hs & Hl & Hdec & _).
  eapply four_decimal_prefix; eassumption.
Qed.

Lemma chr_lower_slash (x : ascii) : chr_lower x = "/"%char -> x = "/"%char.
Proof.
  destruct x as [[] [] [] [] [] [] [] []]; vm_compute; intros H;
    try discriminate H; reflexivity.
Qed.

Lemma chr_lower_dash (x : ascii) : chr_lower x = "-"%char -> x = "-"%char.
Proof.
  destruct x as [[] [] [] [] [] [] [] []]; vm_compute; intros H;
    try discriminate H; reflexivity.
Qed.

Lemma literal_text (c : ascii) (t : pystr) :
  item_text (FLit c) t -> exists x, t = [x] /\ chr_lower x = chr_lower c.
Proof.
  intros (s & r & H). cbn [item_regex rmatch] in H.
  apply match_one_split in H. destruct H as (_ & x & -> & Hx).
  exists x. split; [reflexivity|].
  unfold ascii_eqb in Hx. apply Ascii.eqb_eq. exact Hx.
Qed.

(** A match of a format holds, for each literal of the format, a
    character of the data equal to it up to case. *)
Lemma literal_in_data (items : list fmt_item) (c : ascii) :
  In (FLit c) items ->
  forall s texts rest,
    In (texts, rest) (fmt_match items s) ->
    exists x, In x s /\ chr_lower x = chr_lower c.
Proof.
  intros Hc s texts rest H. apply fmt_match_split in H.
  destruct H as [-> Hf].
  revert Hc. induction Hf as [|it t items texts Hit _ IH]; intros Hc; [destruct Hc|].
  destruct Hc as [->|Hc].
  - destruct (literal_text c t Hit) as (x & -> & Hx).
    exists x. split; [left; reflexivity|exact Hx].
  - destruct (IH Hc) as (x & Hin & Hx). exists x. split; [|exact Hx].
    cbn [concat]. rewrite <- app_assoc. apply in_or_app. right. exact Hin.
Qed.

Lemma strptime_items_literal (items : list fmt_item) (c : ascii) (s : pystr)
    (date : datetime) :
  In (FLit c) items ->
  strptime_items items s = Ok date ->
  exists x, In x s /\ chr_lower x = chr_lower c.
Proof.
  intros Hc H. unfold strptime_items in H.
  destruct (fmt_match items s) as [|[texts rest] ms] eqn:E; [discriminate|].
  apply (literal_in_data items c Hc s texts rest). rewrite E. left. reflexivity.
Qed.

Lemma digit_char_not_separator (k : Z) :
  0 <= k <= 9 -> digit_char k <> "/"%char /\ digit_char k <> "-"%char.
Proof.
  intros H. pose proof (digit_char_decimal k H) as D.
  split; intros E; rewrite E in D; discriminate D.
Qed.

Section RenderedFailures.

Variables (y m d : Z).
Hypothesis date_valid : valid_date y m d = true.

Lemma rendered_digits :
  Forall (fun k => 0 <= k <= 9)
    [y / 1000; y / 100 mod 10; y / 10 mod 10; y mod 10;
     m / 10; m mod 10; d / 10; d mod 10].
Proof.
  apply valid_date_ranges in date_valid.
  repeat constructor; Z.to_euclidean_division_equations; lia.
Qed.

Ltac no_separator Hin :=
  pose proof rendered_digits as Hk;
  repeat match goal with
  | H : Forall _ (_ :: _) |- _ =>
      let K := fresh "K" in
      inversion H as [|? ? K ?]; subst; clear H;
      apply digit_char_not_separator in K
  end;
  cbn [In] in Hin; intuition (try discriminate; eauto).

(** A layout written with slashes does not parse a dashed rendering. *)
Lemma slash_layout_on_dashes (items : list fmt_item) (l : layout)
    (date : datetime) :
  In (FLit "/"%char) items ->
  l = YearMonthDay \/ l = DayMonthYearDashed ->
  strptime_items items (render l y m d) = Ok date -> False.
Proof.
  intros Hc Hl H. apply (strptime_items_literal items _ _ _ Hc) in H.
  destruct H as (x & Hin & Hx). apply chr_lower_slash in Hx. subst x.
  destruct Hl as [-> | ->]; unfold render, two_digits, four_digits in Hin;
    cbn [app py list_ascii_of_string] in Hin; no_separator Hin.
Qed.

(** A layout written with dashes does not parse a slashed rendering. *)
Lemma dash_layout_on_slashes (items : list fmt_item) (l : layout)
    (date : datetime) :
  In (FLit "-"%char) items ->
  l = DayMonthYear \/ l = MonthDayYear ->
  strptime_items items (render l y m d) = Ok date -> False.
Proof.
  intros Hc Hl H. apply (strptime_items_literal items _ _ _ Hc) in H.
  destruct H as (x & Hin & Hx). apply chr_lower_dash in Hx. subst x.
  destruct Hl as [-> | ->]; unfold render, two_digits, four_digits in Hin;
    cbn [app py list_ascii_of_string] in Hin; no_separator Hin.
Qed.

(** Day/month/year does not parse a month/day/year rendering whose day
    is above 12: no month can be read. *)
Lemma day_first_on_late_day :
  12 < d ->
  strptime_items [FDir Dir_d; FLit "/"%char; FDir Dir_m; FLit "/"%char; FDir Dir_Y]
    (render MonthDayYear y m d) = Raise ValueError.
Proof.
  intros Hd. apply valid_date_ranges in date_valid.
  assert (Hm : 1 <= m < 1 + Z.of_nat 12) by lia.
  assert (Hd' : 13 <= d < 13 + Z.of_nat 19) by lia.
  apply Z_range_cases in Hm, Hd'.
  each_value Hm; each_value Hd'; reflexivity.
Qed.

End RenderedFailures.

Lemma strptime_formats (s : pystr) :
  strptime s (py "%d/%m/%Y")
    = strptime_items [FDir Dir_d; FLit "/"%char; FDir Dir_m; FLit "/"%char; FDir Dir_Y] s
  /\ strptime s (py "%Y-%m-%d")
     = strptime_items [FDir Dir_Y; FLit "-"%char; FDir Dir_m; FLit "-"%char; FDir Dir_d] s
  /\ strptime s (py "%d-%m-%Y")
     = strptime_items [FDir Dir_d; FLit "-"%char; FDir Dir_m; FLit "-"%char; FDir Dir_Y] s
  /\ strptime s (py "%m/%d/%Y")
     = strptime_items [FDir Dir_m; FLit "/"%char; FDir Dir_d; FLit "/"%char; FDir Dir_Y] s.
Proof. repeat split. Qed.

(** A layout, named by its first directive and its separator, that
    cannot parse the data raises, and the next one is tried. *)
Ltac layout_fails a c why :=
  match goal with
  | |- context [strptime_items (FDir a :: FLit c :: ?items) ?s] =>
      let E := fresh "E" in
      destruct (strptime_items (FDir a :: FLit c :: items) s)
        as [?date|?e] eqn:E;
      [exfalso; why E|clear E]
  end.

Lemma first_parse_rendering (l : layout) (y m d : Z) :
  valid_date y m d = true ->
  (l = MonthDayYear -> 12 < d) ->
  first_parse (render l y m d) = Some (mk_datetime y m d 0 0 0 0).
Proof.
  intros Hv Hlate. unfold first_parse, parse_as.
  destruct (strptime_formats (render l y m d)) as (-> & -> & -> & ->).
  destruct l.
  - change (render DayMonthYear y m d)
      with (two_digits d ++ ["/"%char] ++ two_digits m ++ ["/"%char] ++ four_digits y).
    rewrite (strptime_day_month_year y m d Hv). reflexivity.
  - layout_fails Dir_d "/"%char ltac:(fun E =>
      eapply (slash_layout_on_dashes y m d Hv); [| |exact E];
      [cbn [In]; tauto|tauto]).
    change (render YearMonthDay y m d)
      with (four_digits y ++ ["-"%char] ++ two_digits m ++ ["-"%char] ++ two_digits d).
    rewrite (strptime_year_month_day y m d Hv). reflexivity.
  - layout_fails Dir_d "/"%char ltac:(fun E =>
      eapply (slash_layout_on_dashes y m d Hv); [| |exact E];
      [cbn [In]; tauto|tauto]).
    layout_fails Dir_Y "-"%char ltac:(fun E =>
      apply year_first_third_digit in E; discriminate E).
    change (render DayMonthYearDashed y m d)
      with (two_digits d ++ ["-"%char] ++ two_digits m ++ ["-"%char] ++ four_digits y).
    rewrite (strptime_day_month_year y m d Hv). reflexivity.
  - rewrite (day_first_on_late_day y m d Hv (Hlate eq_refl)).
    layout_fails Dir_Y "-"%char ltac:(fun E =>
      apply year_first_third_digit in E; discriminate E).
    layout_fails Dir_d "-"%char ltac:(fun E =>
      eapply (dash_layout_on_slashes y m d Hv); [| |exact E];
      [cbn [In]; tauto|tauto]).
    change (render MonthDayYear y m d)
      with (two_digits m ++ ["/"%char] ++ two_digits d ++ ["/"%char] ++ four_digits y).
    rewrite (strptime_month_day_year y m d Hv). reflexivity.
Qed.

(** A calendar date written with two-digit day and month and four-digit
    year as day/month/year, year-month-day or day-month-year, or as
    month/day/year with a day above 12, is read as that date: the answer
    is whether the date, at midnight, is not after the clock. *)
Theorem validate_date_reads_rendering (now : datetime) (l : layout) (y m d : Z) :
  valid_date y m d = true ->
  (l = MonthDayYear -> 12 < d) ->
  _validate_date now (render l y m d)
  = Ok (datetime_le (mk_datetime y m d 0 0 0 0) now).
Proof.
  intros Hv Hlate.
  rewrite validate_date_first_parse, (strip_render l y m d Hv),
    (first_parse_rendering l y m d Hv Hlate), datetime_le_not_lt.
  reflexivity.
Qed.

Lemma validate_date_reads_rendering_witness :
  _validate_date a_november_morning (py "2026-11-04") = Ok true
  /\ _validate_date a_november_morning (py "05-11-2026") = Ok false
  /\ _validate_date a_november_morning (py "11/13/2026") = Ok false.
Proof.
  split; [|split].
  - exact (validate_date_reads_rendering a_november_morning YearMonthDay
             2026 11 4 eq_refl ltac:(discriminate)).
  - exact (validate_date_reads_rendering a_november_morning DayMonthYearDashed
             2026 11 5 eq_refl ltac:(discriminate)).
  - exact (validate_date_reads_rendering a_november_morning MonthDayYear
             2026 11 13 eq_refl ltac:(reflexivity)).
Defined.

(** A month/day/year string whose day is at most 12 never reaches the
    month/day/year layout: it is read day first, as the date with day and
    month exchanged, and that date decides the answer. *)
Theorem validate_date_month_first_read_day_first (now : datetime) (y m d : Z) :
  valid_date y d m = true ->
  _validate_date now (render MonthDayYear y m d)
  = Ok (datetime_le (mk_datetime y d m 0 0 0 0) now).
Proof.
  intros Hv.
  change (render MonthDayYear y m d) with (render DayMonthYear y d m).
  rewrite validate_date_first_parse, (strip_render DayMonthYear y d m Hv),
    (first_parse_rendering DayMonthYear y d m Hv), datetime_le_not_lt
    by discriminate.
  reflexivity.
Qed.

(** On 4 November 2026 the string "12/01/2026", 1 December in
    month/day/year, is accepted: it is read as 12 January. *)
Lemma validate_date_month_first_read_day_first_witness :
  _validate_date a_november_morning (py "12/01/2026") = Ok true.
Proof.
  exact (validate_date_month_first_read_day_first a_november_morning
           2026 12 1 eq_refl).
Defined.

(** ** Outcomes of [_validate_fields] *)

Lemma validate_cpf_raises_value_error (s : pystr) (e : exn) :
  _validate_cpf s = Raise e -> e = ValueError.
Proof.
  unfold _validate_cpf.
  destruct (Nat.eqb (length (digits_only s)) 11) eqn:El;
    cbn [negb orb]; [|discriminate].
  destruct (str_eqb _ _); [discriminate|].
  apply Nat.eqb_eq in El. apply cpf_check_loop_raises.
  intros i [<-|[<-|[]]]; lia.
Qed.

Lemma validate_entry_raises (now : datetime) (r : ValidationResult)
    (key value : pystr) (e : exn) :
  validate_entry now r key value = Raise e ->
  e = ValueError /\ classify key = KindCPF /\ _validate_cpf value = Raise ValueError.
Proof.
  unfold validate_entry, classify.
  destruct (contains (py "cpf") (lower key)).
  { destruct (_validate_cpf value) as [[|]|e'] eqn:E; cbn [bind]; try discriminate.
    intros H. inversion H; subst.
    pose proof (validate_cpf_raises_value_error _ _ E). subst. auto. }
  destruct (contains (py "cnpj") (lower key)).
  { destruct (_validate_cnpj value); discriminate. }
  destruct (contains (py "data") (lower key) || contains (py "date") (lower key)).
  { destruct (validate_date_returns now value) as [b ->].
    destruct b; discriminate. }
  discriminate.
Qed.

Lemma validate_loop_raises (clock : nat -> datetime) (items : dict) :
  forall i r e,
    validate_loop clock i r items = Raise e ->
    e = ValueError
    /\ exists key value,
         In (key, value) items /\ classify key = KindCPF
         /\ _validate_cpf value = Raise ValueError.
Proof.
  induction items as [|[key value] items IH]; intros i r e H; simpl in H;
    [discriminate|].
  destruct (validate_entry (clock i) r key value) as [r'|e'] eqn:E; cbn [bind] in H.
  - destruct (IH _ _ _ H) as (He & k & v & Hin & Hk & Hv).
    split; [exact He|]. exists k, v. split; [right; exact Hin|auto].
  - inversion H; subst. apply validate_entry_raises in E.
    destruct E as (He & Hk & Hv). split; [exact He|].
    exists key, value. split; [left; reflexivity|auto].
Qed.

(** [_validate_fields] fails in one way only: with the [ValueError] of
    [_validate_cpf] on the value of a pair filed under CPF.  Dates,
    CNPJs and unrecognised keys never make it fail. *)
Theorem validate_fields_raises_only (clock : nat -> datetime)
    (ed : ExtractedData) (e : exn) :
  _validate_fields clock ed = Raise e ->
  e = ValueError
  /\ exists key value,
       In (key, value) (get_key_value_pairs ed)
       /\ classify key = KindCPF
       /\ _validate_cpf value = Raise ValueError.
Proof. unfold _validate_fields. apply validate_loop_raises. Qed.

Lemma validate_fields_raises_only_witness :
  exists key value,
    In (key, value) (get_key_value_pairs superscript_pairs)
    /\ classify key = KindCPF
    /\ _validate_cpf value = Raise ValueError.
Proof.
  exact (proj2 (validate_fields_raises_only (fun _ => a_november_morning)
                  superscript_pairs ValueError eq_refl)).
Defined.

Lemma chr_lower_idempotent (c : ascii) : chr_lower (chr_lower c) = chr_lower c.
Proof. destruct c as [[] [] [] [] [] [] [] []]; reflexivity. Qed.

Lemma lower_idempotent (s : pystr) : lower (lower s) = lower s.
Proof.
  unfold lower. rewrite map_map. apply map_ext. apply chr_lower_idempotent.
Qed.

Lemma validate_entry_key_case (now : datetime) (r : ValidationResult)
    (key key' value : pystr) :
  lower key = lower key' ->
  validate_entry now r key value = validate_entry now r key' value.
Proof. intros H. unfold validate_entry. rewrite H. reflexivity. Qed.

(** The case of the keys does not matter: two mappings whose entries,
    taken in order, have the same values and keys that differ only by
    case get the same outcome from [_validate_fields]. *)
Theorem validate_fields_key_case (clock : nat -> datetime)
    (ed ed' : ExtractedData) :
  Forall2 same_up_to_case (get_key_value_pairs ed) (get_key_value_pairs ed') ->
  _validate_fields clock ed = _validate_fields clock ed'.
Proof.
  unfold _validate_fields. cbv zeta.
  generalize (get_key_value_pairs ed), (get_key_value_pairs ed'), 0%nat,
             empty_results.
  intros kvp kvp' i r H. revert i r.
  induction H as [|[key value] [key' value'] kvp kvp' [Hk Hv] _ IH];
    intros i r; [reflexivity|].
  cbn [fst snd] in Hk, Hv. subst value'.
  cbn [validate_loop]. rewrite (validate_entry_key_case _ _ key key' value Hk).
  destruct (validate_entry (clock i) r key' value); cbn [bind];
    [apply IH|reflexivity].
Qed.

Lemma validate_fields_key_case_witness :
  _validate_fields (fun _ => a_november_morning) sample_extracted
  = _validate_fields (fun _ => a_november_morning) shouted_extracted
  /\ _validate_fields (fun _ => a_november_morning) shouted_extracted
     = Ok sample_validation.
Proof.
  split; [|reflexivity].
  apply (validate_fields_key_case (fun _ => a_november_morning)
           sample_extracted shouted_extracted).
  repeat constructor.
Defined.

(** ** Monotonicity of the score and of the level *)

Lemma level_rank_of_score (score : Z) :
  level_rank (_get_risk_level score)
  = if score <=? 20 then 0 else if score <=? 50 then 1
    else if score <=? 75 then 2 else 3.
Proof.
  unfold _get_risk_level.
  destruct (score <=? 20); [reflexivity|].
  destruct (score <=? 50); [reflexivity|].
  destruct (score <=? 75); reflexivity.
Qed.

(** More findings never lower the risk: when no count of invalid fields,
    warnings or flags decreases, neither the score nor the level does. *)
Theorem risk_monotone (v v' : ValidationResult) (fa fa' : FraudAnalysis) :
  (length (invalid_fields v) <= length (invalid_fields v'))%nat ->
  (length (warnings v) <= length (warnings v'))%nat ->
  (length (flags fa) <= length (flags fa'))%nat ->
  _calculate_risk_score v fa <= _calculate_risk_score v' fa'
  /\ level_rank (_get_risk_level (_calculate_risk_score v fa))
     <= level_rank (_get_risk_level (_calculate_risk_score v' fa')).
Proof.
  intros Hi Hw Hf.
  assert (Hs : _calculate_risk_score v fa <= _calculate_risk_score v' fa').
  { unfold _calculate_risk_score, len. lia. }
  split; [exact Hs|]. rewrite !level_rank_of_score.
  repeat match goal with
  | |- context [?a <=? ?b] => destruct (Z.leb_spec a b)
  end; lia.
Qed.

Lemma risk_monotone_witness :
  _calculate_risk_score empty_results sentinel_analysis
  <= _calculate_risk_score sample_validation sentinel_analysis.
Proof.
  apply (risk_monotone empty_results sample_validation
           sentinel_analysis sentinel_analysis); cbn; lia.
Defined.

(** ** [analyze_document] *)

Lemma analyze_document_steps (self : Analyzer) (clock : nat -> datetime)
    (path : pystr) (report : Report) :
  analyze_document self clock path = Ok report ->
  exists ed v fa,
    _extract_document_data self path = Ok ed
    /\ _validate_fields clock ed = Ok v
    /\ _analyze_fraud_patterns self ed v = Ok fa
    /\ report
       = {| timestamp := clock (length (get_key_value_pairs ed));
            document := path;
            extracted_data := ed;
            validation := v;
            fraud_analysis := fa;
            risk_score := _calculate_risk_score v fa;
            risk_level := _get_risk_level (_calculate_risk_score v fa) |}.
Proof.
  unfold analyze_document.
  destruct (_extract_document_data self path) as [ed|e] eqn:Eed;
    cbn [bind]; [|discriminate].
  destruct (_validate_fields clock ed) as [v|e] eqn:Ev;
    cbn [bind]; [|discriminate].
  destruct (_analyze_fraud_patterns self ed v) as [fa|e] eqn:Efa;
    cbn [bind]; [|discriminate].
  intros H. injection H as <-. exists ed, v, fa. repeat split; assumption.
Qed.

Lemma fraud_flags (self : Analyzer) (ed : ExtractedData)
    (v : ValidationResult) (fa : FraudAnalysis) :
  _analyze_fraud_patterns self ed v = Ok fa ->
  flags fa = match openai_client self with
             | Some _ => invalid_fields v
             | None => []
             end.
Proof.
  unfold _analyze_fraud_patterns.
  destruct (openai_client self) as [client|].
  - destruct (client _ _) as [[|first others]|e]; cbn [bind]; intros H;
      inversion H; reflexivity.
  - intros H. inversion H. reflexivity.
Qed.

(** In a report an invalid field weighs 40 when a text client is
    configured (25 as an invalid field and 15 as the flag copied from
    it) and 25 when none is; a warning weighs 10 either way; valid
    fields and the narrative weigh nothing. *)
Theorem report_score_weights (self : Analyzer) (clock : nat -> datetime)
    (path : pystr) (report : Report) :
  analyze_document self clock path = Ok report ->
  risk_score report
  = Z.min 100
      (match openai_client self with Some _ => 40 | None => 25 end
         * len (invalid_fields (validation report))
       + 10 * len (warnings (validation report))).
Proof.
  intros H. apply analyze_document_steps in H.
  destruct H as (ed & v & fa & _ & _ & Hfa & ->). cbn [risk_score validation].
  apply fraud_flags in Hfa. unfold _calculate_risk_score. rewrite Hfa.
  destruct (openai_client self); unfold len; cbn [length]; lia.
Qed.

Lemma run_full : run full_analyzer = Ok (report_of full_analyzer blank_report).
Proof. reflexivity. Qed.

Lemma run_half : run half_analyzer = Ok (report_of half_analyzer blank_report).
Proof. reflexivity. Qed.

Lemma report_score_weights_witness :
  risk_score (report_of full_analyzer blank_report) = 80
  /\ risk_score (report_of half_analyzer blank_report) = 50.
Proof.
  split.
  - exact (report_score_weights full_analyzer (fun _ => a_november_morning)
             (py "doc.pdf") _ run_full).
  - exact (report_score_weights half_analyzer (fun _ => a_november_morning)
             (py "doc.pdf") _ run_half).
Defined.

(** A failure of a collaborator is the failure of [analyze_document]:
    the exception of the document client, and, once the fields are
    validated, the exception of the text client or the [IndexError] of
    an answer without choices, leave it unchanged, and no report is
    returned. *)
Theorem analyze_document_propagates (self : Analyzer) (clock : nat -> datetime)
    (path : pystr) (e : exn) :
  (forall client,
     doc_client self = Some client -> client path = Raise e ->
     analyze_document self clock path = Raise e)
  /\ (forall client ed v,
        _extract_document_data self path = Ok ed ->
        _validate_fields clock ed = Ok v ->
        openai_client self = Some client ->
        client (openai_deployment self) (fraud_prompt ed v) = Raise e ->
        analyze_document self clock path = Raise e)
  /\ (forall client ed v,
        _extract_document_data self path = Ok ed ->
        _validate_fields clock ed = Ok v ->
        openai_client self = Some client ->
        client (openai_deployment self) (fraud_prompt ed v) = Ok [] ->
        analyze_document self clock path = Raise IndexError).
Proof.
  split; [|split].
  - intros client Hc He. unfold analyze_document, _extract_document_data.
    rewrite Hc, He. reflexivity.
  - intros client ed v Hed Hv Hc He. unfold analyze_document.
    rewrite Hed. cbn [bind]. rewrite Hv. cbn [bind].
    unfold _analyze_fraud_patterns. rewrite Hc, He. reflexivity.
  - intros client ed v Hed Hv Hc He. unfold analyze_document.
    rewrite Hed. cbn [bind]. rewrite Hv. cbn [bind].
    unfold _analyze_fraud_patterns. rewrite Hc, He. reflexivity.
Qed.

Lemma analyze_document_propagates_witness :
  analyze_document broken_reader (fun _ => a_november_morning) (py "doc.pdf")
    = Raise ServiceError
  /\ analyze_document silent_narrator (fun _ => a_november_morning) (py "doc.pdf")
     = Raise IndexError.
Proof.
  split.
  - exact (proj1 (analyze_document_propagates broken_reader
                    (fun _ => a_november_morning) (py "doc.pdf") ServiceError)
             failing_doc_client eq_refl eq_refl).
  - exact (proj2 (proj2 (analyze_document_propagates silent_narrator
                           (fun _ => a_november_morning) (py "doc.pdf")
                           ServiceError))
             silent_text_client no_key_value_pairs empty_results
             eq_refl eq_refl eq_refl eq_refl).
Defined.

(** A report hangs together: it names the document it was asked about,
    its score is the score of its own validation and fraud analysis and
    lies in 0..100, its level is the level of its score, its flags are
    among its invalid fields, and its buckets hold at most one label per
    extracted pair. *)
Theorem report_coherent (self : Analyzer) (clock : nat -> datetime)
    (path : pystr) (report : Report) :
  analyze_document self clock path = Ok report ->
  document report = path
  /\ risk_score report
     = _calculate_risk_score (validation report) (fraud_analysis report)
  /\ 0 <= risk_score report <= 100
  /\ risk_level report = _get_risk_level (risk_score report)
  /\ incl (flags (fraud_analysis report)) (invalid_fields (validation report))
  /\ (n_labels (validation report)
      <= length (get_key_value_pairs (extracted_data report)))%nat.
Proof.
  intros H. apply analyze_document_steps in H.
  destruct H as (ed & v & fa & _ & Hv & Hfa & ->).
  cbn [document risk_score risk_level validation fraud_analysis extracted_data].
  split; [reflexivity|]. split; [reflexivity|]. split.
  { pose proof (len_nonneg (invalid_fields v)).
    pose proof (len_nonneg (warnings v)).
    pose proof (len_nonneg (flags fa)).
    unfold _calculate_risk_score. lia. }
  split; [reflexivity|]. split.
  - rewrite (fraud_flags _ _ _ _ Hfa).
    destruct (openai_client self); [apply incl_refl|apply incl_nil_l].
  - unfold _validate_fields in Hv.
    destruct (validate_loop_contributions _ _ _ _ _ Hv) as (cs & Hcs & Hr).
    destruct (contributions_one_label _ _ _ _ Hcs) as [Hall Hlen].
    rewrite Hr, n_labels_merge, <- Hlen.
    pose proof (n_labels_merge_all cs Hall) as Hn.
    change (n_labels empty_results) with 0%nat. lia.
Qed.

Lemma report_coherent_witness :
  risk_level (report_of full_analyzer blank_report)
  = _get_risk_level (risk_score (report_of full_analyzer blank_report)).
Proof.
  exact (proj1 (proj2 (proj2 (proj2
           (report_coherent full_analyzer (fun _ => a_november_morning)
              (py "doc.pdf") _ run_full))))).
Defined.

(** ** [_extract_document_data] *)

Lemma str_eqb_eq (s t : pystr) : str_eqb s t = true <-> s = t.
Proof.
  revert t. induction s as [|a s IH]; intros [|b t]; simpl.
  - split; reflexivity.
  - split; discriminate.
  - split; discriminate.
  - unfold ascii_eqb. rewrite andb_true_iff, Ascii.eqb_eq, IH.
    split; [intros [-> ->]; reflexivity|intros H; inversion H; auto].
Qed.

Lemma dict_set_keys (d : dict) (k v key : pystr) :
  In key (map fst (dict_set d k v)) <-> key = k \/ In key (map fst d).
Proof.
  induction d as [|[k0 v0] d IH]; simpl; [intuition congruence|].
  destruct (str_eqb k0 k) eqn:E; simpl.
  - apply str_eqb_eq in E. subst. intuition congruence.
  - rewrite IH. intuition congruence.
Qed.

Lemma dict_set_entries (d : dict) (k v : pystr) :
  NoDup (map fst d) ->
  NoDup (map fst (dict_set d k v))
  /\ forall key value,
       In (key, value) (dict_set d k v)
       <-> (key = k /\ value = v) \/ (key <> k /\ In (key, value) d).
Proof.
  induction d as [|[k0 v0] d IH]; intros Hnd; simpl.
  - split; [repeat constructor; intros []|].
    intros key value. split.
    + intros [H|[]]. inversion H. auto.
    + intros [[-> ->]|[_ []]]. left. reflexivity.
  - inversion Hnd as [|? ? Hnot Hnd']; subst.
    destruct (IH Hnd') as [IHn IHe].
    destruct (str_eqb k0 k) eqn:E; simpl.
    + apply str_eqb_eq in E. subst k0. split; [constructor; assumption|].
      intros key value. split.
      * intros [H|H]; [inversion H; auto|].
        right. split; [|right; exact H].
        intros ->. apply Hnot. apply (in_map fst) in H. exact H.
      * intros [[-> ->]|[Hne [H|H]]]; [left; reflexivity| |right; exact H].
        inversion H; subst. contradiction Hne; reflexivity.
    + assert (Hne0 : k0 <> k).
      { intros ->. assert (str_eqb k k = true) by (apply str_eqb_eq; reflexivity).
        congruence. }
      split.
      * constructor; [|exact IHn]. rewrite dict_set_keys.
        intros [->|H]; [apply Hne0; reflexivity|contradiction].
      * intros key value. rewrite IHe. split.
        -- intros [H|[H|H]]; [inversion H; subst; right; auto|left; exact H|].
           right. split; [tauto|right; tauto].
        -- intros [H|[Hne [H|H]]]; [right; left; exact H|left; exact H|].
           right. right. auto.
Qed.

Lemma extract_pairs_snoc (pairs : list KeyValuePair) (entry : KeyValuePair) :
  extract_pairs (pairs ++ [entry])
  = dict_set (extract_pairs pairs) (fst (pair_entry entry)) (snd (pair_entry entry)).
Proof. unfold extract_pairs. rewrite fold_left_app. reflexivity. Qed.

Lemma last_value_snoc (key : pystr) (pairs : list KeyValuePair)
    (entry : KeyValuePair) :
  last_value key (pairs ++ [entry])
  = if str_eqb (fst (pair_entry entry)) key then Some (snd (pair_entry entry))
    else last_value key pairs.
Proof.
  induction pairs as [|p pairs IH]; cbn [app last_value].
  - destruct (str_eqb (fst (pair_entry entry)) key); reflexivity.
  - rewrite IH. destruct (str_eqb (fst (pair_entry entry)) key); reflexivity.
Qed.

Lemma extract_pairs_entries (pairs : list KeyValuePair) :
  NoDup (map fst (extract_pairs pairs))
  /\ (forall key value,
        In (key, value) (extract_pairs pairs) <-> last_value key pairs = Some value)
  /\ (length (extract_pairs pairs) <= length pairs)%nat.
Proof.
  induction pairs as [|entry pairs IH] using rev_ind.
  - split; [constructor|]. split; [|simpl; lia].
    intros key value. simpl. split; [intros []|discriminate].
  - destruct IH as (Hnd & He & Hl).
    rewrite extract_pairs_snoc.
    destruct (dict_set_entries (extract_pairs pairs) (fst (pair_entry entry))
                (snd (pair_entry entry)) Hnd) as [Hnd' He'].
    split; [exact Hnd'|]. split.
    + intros key value. rewrite He', last_value_snoc, He.
      destruct (str_eqb (fst (pair_entry entry)) key) eqn:E.
      * apply str_eqb_eq in E. split.
        -- intros [[_ ->]|[Hne _]]; [reflexivity|].
           contradiction Hne. symmetry. exact E.
        -- intros H. inversion H. left. split; [symmetry; exact E|reflexivity].
      * assert (Hne : key <> fst (pair_entry entry)).
        { intros ->.
          assert (str_eqb (fst (pair_entry entry)) (fst (pair_entry entry)) = true)
            by (apply str_eqb_eq; reflexivity).
          congruence. }
        split; [intros [[H _]|[_ H]]; [contradiction|exact H]|].
        intros H. right. split; assumption.
    + rewrite length_app. cbn [length].
      assert (Hs : forall d k v, (length (dict_set d k v) <= S (length d))%nat).
      { clear. induction d as [|[k0 v0] d IH]; intros k v; simpl; [lia|].
        destruct (str_eqb k0 k); simpl; [lia|]. specialize (IH k v). lia. }
      specialize (Hs (extract_pairs pairs) (fst (pair_entry entry))
                    (snd (pair_entry entry))). lia.
Qed.

(** With a document client that answers, the extracted data has no
    error entry, an empty [entities] list, and a mapping with one entry
    per distinct key: its value is the value of the last entry with that
    key, pairs without a key all falling on "unknown" and pairs without a
    value reading as the empty string.  Earlier values for a repeated
    key are lost. *)
Theorem extract_last_value_wins (self : Analyzer) (path : pystr)
    (client : pystr -> result AnalyzeResult) (res : AnalyzeResult)
    (pairs : list KeyValuePair) :
  doc_client self = Some client ->
  client path = Ok res ->
  result_key_value_pairs res = Some pairs ->
  exists ed kvp,
    _extract_document_data self path = Ok ed
    /\ error ed = None /\ entities ed = Some []
    /\ key_value_pairs ed = Some kvp
    /\ NoDup (map fst kvp)
    /\ (forall key value,
          In (key, value) kvp <-> last_value key pairs = Some value)
    /\ (length kvp <= length pairs)%nat.
Proof.
  intros Hc Hres Hp. unfold _extract_document_data. rewrite Hc, Hres.
  cbn [bind]. rewrite Hp.
  destruct (extract_pairs_entries pairs) as (Hnd & He & Hl).
  eexists. exists (extract_pairs pairs).
  split; [reflexivity|]. cbn [error entities key_value_pairs].
  repeat split; try assumption; apply He.
Qed.

Lemma extract_last_value_wins_witness :
  _extract_document_data repeated_key_reader (py "doc.pdf")
  = Ok {| error := None;
          key_value_pairs := Some [(py "CPF", []); (py "unknown", py "x")];
          tables := Some []; entities := Some [] |}.
Proof.
  destruct (extract_last_value_wins repeated_key_reader (py "doc.pdf")
              repeated_key_client _ _ eq_refl eq_refl eq_refl)
    as (ed & kvp & _).
  reflexivity.
Defined.

(** What [__init__] reads: five environment variables, and the
    constructors of the two libraries when their import succeeded.  A
    client is built only when its key and endpoint are both set to a
    non-empty string and its library is there. *)

(** When, for each service, the key or the endpoint is unset or empty or
    the library is missing, the constructor calls no library, builds an
    analyzer without clients, and every document then gets the same
    report: the error entry for data, empty buckets, the sentinel
    narrative, score 0 and level BAIXO.  The deployment name is "gpt-4"
    only when its variable is unset: an empty value is kept. *)
Theorem init_without_credentials (env : Environment) :
  truthy (getenv env (py "AZURE_DOCUMENT_INTELLIGENCE_KEY"))
    && truthy (getenv env (py "AZURE_DOCUMENT_INTELLIGENCE_ENDPOINT")) = false
  \/ DocumentIntelligenceClient env = None ->
  truthy (getenv env (py "AZURE_OPENAI_KEY"))
    && truthy (getenv env (py "AZURE_OPENAI_ENDPOINT")) = false
  \/ AzureOpenAI env = None ->
  exists self,
    __init__ env = Ok self
    /\ doc_client self = None /\ openai_client self = None
    /\ openai_deployment self
       = match getenv env (py "AZURE_OPENAI_DEPLOYMENT") with
         | Some v => v
         | None => py "gpt-4"
         end
    /\ forall clock path,
         analyze_document self clock path = Ok (degraded_report clock path).
Proof.
  intros Hd Ho. unfold __init__.
  assert (Ed : match DocumentIntelligenceClient env with
               | Some new_client =>
                   if truthy (getenv env (py "AZURE_DOCUMENT_INTELLIGENCE_KEY"))
                      && truthy (getenv env (py "AZURE_DOCUMENT_INTELLIGENCE_ENDPOINT"))
                   then c <- new_client
                               (or_empty (getenv env (py "AZURE_DOCUMENT_INTELLIGENCE_ENDPOINT")))
                               (or_empty (getenv env (py "AZURE_DOCUMENT_INTELLIGENCE_KEY"))) ;;
                        Ok (Some c)
                   else Ok None
               | None => Ok None
               end = Ok None).
  { destruct Hd as [-> | ->]; [destruct (DocumentIntelligenceClient env)|];
      reflexivity. }
  assert (Eo : match AzureOpenAI env with
               | Some new_client =>
                   if truthy (getenv env (py "AZURE_OPENAI_KEY"))
                      && truthy (getenv env (py "AZURE_OPENAI_ENDPOINT"))
                   then c <- new_client (or_empty (getenv env (py "AZURE_OPENAI_KEY")))
                               (py "2024-02-01")
                               (or_empty (getenv env (py "AZURE_OPENAI_ENDPOINT"))) ;;
                        Ok (Some c)
                   else Ok None
               | None => Ok None
               end = Ok None).
  { destruct Ho as [-> | ->]; [destruct (AzureOpenAI env)|]; reflexivity. }
  cbv zeta. rewrite Ed. cbn [bind]. rewrite Eo. cbn [bind].
  eexists. split; [reflexivity|]. cbn [doc_client openai_client openai_deployment].
  repeat split.
Qed.

Lemma init_without_credentials_witness :
  __init__ bare_environment = Ok unconfigured_analyzer
  /\ analyze_document unconfigured_analyzer (fun _ => a_november_morning)
       (py "doc.pdf")
     = Ok (degraded_report (fun _ => a_november_morning) (py "doc.pdf")).
Proof.
  destruct (init_without_credentials bare_environment
              (or_introl eq_refl) (or_introl eq_refl))
    as (self & Hinit & _).
  split; reflexivity.
Defined.

(** The dashboard's colour and the report's level cut the scale at the
    same two points: green is BAIXO, orange is MEDIO, and red covers
    ALTO and CRITICO. *)
Theorem color_matches_level (score : Z) :
  (color score = py "green" <-> _get_risk_level score = py "BAIXO")
  /\ (color score = py "orange" <-> _get_risk_level score = py "MEDIO")
  /\ (color score = py "red"
      <-> _get_risk_level score = py "ALTO"
          \/ _get_risk_level score = py "CRITICO").
Proof.
  unfold color, _get_risk_level.
  destruct (score <=? 20); [|destruct (score <=? 50); [|destruct (score <=? 75)]];
    repeat split; intros; try discriminate; auto;
    match goal with H : _ \/ _ |- _ => destruct H; discriminate end.
Qed.
